(** * openclaw-kcc-notify: the notifier plugin and the Telegram mode watchdog

    A shallow embedding of [src/index.ts] (the notifier's classification
    predicates and its four handlers) and of the watchdog shell script
    (its persisted state, its main routine and the two mode switches),
    followed by the properties of the specification that concern them. *)

From Stdlib Require Import ZArith List Bool Lia.
From Stdlib Require Import Strings.Ascii Strings.String Numbers.DecimalString.
Import ListNotations.

Local Open Scope string_scope.
Local Open Scope Z_scope.

(* ===================================================================== *)
(** ** JavaScript strings

    A string is a sequence of code units; the model keeps the code units
    below 256, the range of Rocq's [ascii].  On that range [toLowerCase]
    maps A-Z and the accented capitals 192-222 (215, the multiplication
    sign, apart) 32 places up, and white space ([\s], [trim]) is
    9-13, 32 and 160. *)

Module Str.

Definition code (c : ascii) : N := N_of_ascii c.

Definition between (lo hi : N) (c : ascii) : bool :=
  (N.leb lo (code c) && N.leb (code c) hi)%bool.

Definition is_digit (c : ascii) : bool := between 48 57 c.

Definition is_space (c : ascii) : bool :=
  (between 9 13 c || N.eqb (code c) 32 || N.eqb (code c) 160)%bool.

Definition is_line_terminator (c : ascii) : bool :=
  (N.eqb (code c) 10 || N.eqb (code c) 13)%bool.

Definition shift32 (c : ascii) : ascii := ascii_of_N (code c + 32).

(** [String.prototype.toLowerCase], one code unit at a time. *)
Definition lower_char (c : ascii) : ascii :=
  if between 65 90 c then shift32 c
  else if (between 192 222 c && negb (N.eqb (code c) 215))%bool then shift32 c
  else c.

Fixpoint toLowerCase (s : string) : string :=
  match s with
  | EmptyString => EmptyString
  | String c r => String (lower_char c) (toLowerCase r)
  end.

(** Case folding of a regular expression with the [i] flag and without the
    [u] flag: a code unit is canonicalised by its upper-case form, and no
    code unit from 128 on canonicalises to an ASCII one, so that an ASCII
    letter of a pattern matches its two cases only. *)
Definition fold_ascii (c : ascii) : ascii :=
  if between 65 90 c then shift32 c else c.

Definition char_eqb (ci : bool) (a b : ascii) : bool :=
  if ci then Ascii.eqb (fold_ascii a) (fold_ascii b) else Ascii.eqb a b.

(** [strip ci p s]: what is left of [s] once the literal [p] has been read
    at its start, if it can be. *)
Fixpoint strip (ci : bool) (p s : string) : option string :=
  match p, s with
  | EmptyString, _ => Some s
  | String _ _, EmptyString => None
  | String a p', String b s' => if char_eqb ci a b then strip ci p' s' else None
  end.

(** [String.prototype.includes]. *)
Fixpoint includes (needle s : string) : bool :=
  match strip false needle s with
  | Some _ => true
  | None => match s with
            | EmptyString => false
            | String _ r => includes needle r
            end
  end.

(** [s.slice(0, n)] for a non-negative [n]. *)
Fixpoint take (n : nat) (s : string) : string :=
  match n, s with
  | O, _ => EmptyString
  | S _, EmptyString => EmptyString
  | S k, String c r => String c (take k r)
  end.

Definition slice0 (n : nat) (s : string) : string := take n s.

Fixpoint trimStart (s : string) : string :=
  match s with
  | EmptyString => EmptyString
  | String c r => if is_space c then trimStart r else s
  end.

Fixpoint rev_onto (s acc : string) : string :=
  match s with
  | EmptyString => acc
  | String c r => rev_onto r (String c acc)
  end.

Definition rev (s : string) : string := rev_onto s EmptyString.

Definition trimEnd (s : string) : string := rev (trimStart (rev s)).

(** [String.prototype.trim]. *)
Definition trim (s : string) : string := trimEnd (trimStart s).

(** The value of a run of decimal digits, as [parseInt(d, 10)] reads it;
    reading stops at the first code unit that is no digit. *)
Fixpoint digits_value (acc : Z) (s : string) : Z :=
  match s with
  | EmptyString => acc
  | String c r =>
      if is_digit c then digits_value (10 * acc + (Z.of_N (code c) - 48)) r
      else acc
  end.

Definition parseInt10 (s : string) : Z := digits_value 0 s.

(** Decimal rendering of an integer, as a template literal or [String]
    renders it. *)
Definition of_Z (z : Z) : string := NilZero.string_of_int (Z.to_int z).

End Str.

(* ===================================================================== *)
(** ** Regular expressions

    The fragment the plugin's patterns are written in: literals, the
    classes [\s], [\d], [.] and [[:\s]], starred and plussed classes,
    sequence, alternation and the two anchors.  A pattern is run the way
    a backtracking matcher runs it: from an offset in the input it yields,
    in the order the matcher tries them, the offsets and remainders at
    which a match can end (a greedy quantifier offers its longest run
    first). *)

Module Re.

Inductive charclass : Type :=
  | CSpace        (* \s *)
  | CDigit        (* \d *)
  | CAny          (* .  *)
  | CColonSpace.  (* [:\s] *)

Definition mem (k : charclass) (c : ascii) : bool :=
  match k with
  | CSpace => Str.is_space c
  | CDigit => Str.is_digit c
  | CAny => negb (Str.is_line_terminator c)
  | CColonSpace => (Ascii.eqb c ":" || Str.is_space c)%bool
  end.

Inductive regex : Type :=
  | Lit (s : string)
  | Cls (k : charclass)
  | Star (k : charclass)
  | Plus (k : charclass)
  | Seq (r1 r2 : regex)
  | Alt (r1 r2 : regex)
  | Bol            (* ^ *)
  | Eol.           (* $ *)

(** A position: how many code units were read, and what is left. *)
Definition pos : Type := (nat * string)%type.

Fixpoint star_from (k : charclass) (off : nat) (s : string) : list pos :=
  match s with
  | EmptyString => [(off, s)]
  | String c r => if mem k c then star_from k (S off) r ++ [(off, s)]
                  else [(off, s)]
  end.

Fixpoint run (ci : bool) (r : regex) (p : pos) : list pos :=
  match r with
  | Lit l => match Str.strip ci l (snd p) with
             | Some rest => [((fst p + String.length l)%nat, rest)]
             | None => []
             end
  | Cls k => match snd p with
             | String c rest => if mem k c then [(S (fst p), rest)] else []
             | EmptyString => []
             end
  | Star k => star_from k (fst p) (snd p)
  | Plus k => match snd p with
              | String c rest => if mem k c then star_from k (S (fst p)) rest else []
              | EmptyString => []
              end
  | Seq r1 r2 => flat_map (run ci r2) (run ci r1 p)
  | Alt r1 r2 => run ci r1 p ++ run ci r2 p
  | Bol => match fst p with O => [p] | S _ => [] end
  | Eol => match snd p with EmptyString => [p] | String _ _ => [] end
  end.

(** Every start position of the input, leftmost first, the end included. *)
Fixpoint starts (off : nat) (s : string) : list pos :=
  (off, s) :: match s with
              | EmptyString => []
              | String _ r => starts (S off) r
              end.

Definition nonempty {A} (l : list A) : bool :=
  match l with [] => false | _ :: _ => true end.

(** A pattern with its flags; the plugin uses no flag but [i]. *)
Record pattern : Type := { ignoreCase : bool; body : regex }.

(** [RegExp.prototype.test]. *)
Definition test (p : pattern) (s : string) : bool :=
  existsb (fun st => nonempty (run (ignoreCase p) (body p) st)) (starts 0 s).

(** [s.match(/pre(grp)/)] and its first capture: the leftmost start
    at which [pre] and then [grp] match, and there the first way of
    matching them; the capture is what [grp] read. *)
Definition first_capture_at (ci : bool) (pre grp : regex) (st : pos) : option string :=
  match flat_map (fun m => map (fun e => (m, e)) (run ci grp m)) (run ci pre st) with
  | (m, e) :: _ => Some (Str.take (fst e - fst m) (snd m))
  | [] => None
  end.

Fixpoint first_some {A B} (f : A -> option B) (l : list A) : option B :=
  match l with
  | [] => None
  | a :: r => match f a with Some b => Some b | None => first_some f r end
  end.

Definition match_capture (ci : bool) (pre grp : regex) (s : string) : option string :=
  first_some (first_capture_at ci pre grp) (starts 0 s).

End Re.

(* ===================================================================== *)
(** ** JavaScript values

    The host hands the handlers untyped event objects ([event: any]), so
    the handlers are modelled on values rather than on typed records.
    Numbers are the integers (exit codes, identifiers); an object is the
    list of its own properties, with distinct names.

    The values are those of a JSON document whose objects are records:
    arrays are not among them, and no value is a function.  An array owns
    [slice] and [includes], and an object whose own [toString] is not
    callable cannot be converted to a string or a number; the properties
    that depend on either say so in their hypotheses. *)

Module Js.

#[local] Set Warnings "-register-all".

Inductive value : Type :=
  | Undefined
  | Null
  | Bool (b : bool)
  | Num (n : Z)
  | Str (s : string)
  | Obj (props : list (string * value)).

Fixpoint lookup (k : string) (props : list (string * value)) : value :=
  match props with
  | [] => Undefined
  | (k', v) :: r => if String.eqb k k' then v else lookup k r
  end.

(** [v?.k]: the property [k] of [v]; [undefined] on [undefined] and
    [null], and on a primitive for the property names used here, none of
    which is a property of a boolean, a number or a string. *)
Definition get (v : value) (k : string) : value :=
  match v with
  | Obj props => lookup k props
  | _ => Undefined
  end.

(** [ToBoolean]. *)
Definition truthy (v : value) : bool :=
  match v with
  | Undefined | Null => false
  | Bool b => b
  | Num n => negb (n =? 0)
  | Str s => negb (String.eqb s EmptyString)
  | Obj _ => true
  end.

(** [a || b]. *)
Definition or (a b : value) : value := if truthy a then a else b.

(** [String(v)], and the conversion [RegExp.prototype.test] applies to
    its argument; for an object, the text [Object.prototype.toString]
    gives, which is the conversion of every object that has no [toString]
    of its own. *)
Definition toString (v : value) : string :=
  match v with
  | Undefined => "undefined"
  | Null => "null"
  | Bool true => "true"
  | Bool false => "false"
  | Num n => Str.of_Z n
  | Str s => s
  | Obj _ => "[object Object]"
  end.

(** [a === b] against a string literal. *)
Definition is_str (v : value) (lit : string) : bool :=
  match v with
  | Str s => String.eqb s lit
  | _ => false
  end.

(** [k in v], for an object [v]. *)
Definition has (v : value) (k : string) : bool :=
  match v with
  | Obj props => existsb (fun kv => String.eqb k (fst kv)) props
  | _ => false
  end.

Definition is_nullish (v : value) : bool :=
  match v with
  | Undefined | Null => true
  | _ => false
  end.

End Js.

(* ===================================================================== *)
(** ** The exec failure filter ([src/index.ts], lines 10-103) *)

Definition DEFAULT_WORKFLOW_ENDPOINT : string := "http://localhost:4200/api/workflow".
Definition DEFAULT_MESSAGES_ENDPOINT : string := "http://localhost:4200/api/messages".
Definition DEFAULT_TIMEOUT_MS : Z := 2000.
Definition BOSS_SENDER_IDS : list string := ["167090545"].

(** Commands where exit code 1 is normal. *)
Definition BENIGN_EXIT1_COMMANDS : list string :=
  ["cat"; "grep"; "ls"; "egrep"; "fgrep"; "diff"; "test"].

(** [/no matches found/i] and [/zsh:.*no matches/i]. *)
Definition re_no_matches_found : Re.pattern :=
  {| Re.ignoreCase := true; Re.body := Re.Lit "no matches found" |}.

Definition re_zsh_no_matches : Re.pattern :=
  {| Re.ignoreCase := true;
     Re.body := Re.Seq (Re.Lit "zsh:") (Re.Seq (Re.Star Re.CAny) (Re.Lit "no matches")) |}.

Definition BENIGN_STDERR_PATTERNS : list Re.pattern :=
  [re_no_matches_found; re_zsh_no_matches].

(** The tail [(\s|$)] of the four command patterns. *)
Definition re_word_end : Re.regex := Re.Alt (Re.Cls Re.CSpace) Re.Eol.

(** The four patterns built for one benign command [cmd]:
    [^cmd(\s|$)], [\|\s*cmd(\s|$)], [&&\s*cmd(\s|$)], [;\s*cmd(\s|$)]. *)
Definition command_patterns (cmd : string) : list Re.pattern :=
  let after (sep : string) :=
    {| Re.ignoreCase := false;
       Re.body := Re.Seq (Re.Lit sep)
                   (Re.Seq (Re.Star Re.CSpace) (Re.Seq (Re.Lit cmd) re_word_end)) |} in
  [ {| Re.ignoreCase := false;
       Re.body := Re.Seq Re.Bol (Re.Seq (Re.Lit cmd) re_word_end) |};
    after "|"; after "&&"; after ";" ].

(** Rule 2 of [isHarmlessExecFailure]: the loop over the benign commands. *)
Definition benign_exit1_command (command : string) : bool :=
  let trimmed := Str.trim command in
  existsb (fun cmd => existsb (fun p => Re.test p trimmed) (command_patterns cmd))
          BENIGN_EXIT1_COMMANDS.

(** Rule 3: [if (stderr) { if (PATTERNS.some(p => p.test(stderr))) ... }]. *)
Definition benign_stderr (stderr : Js.value) : bool :=
  (Js.truthy stderr
   && existsb (fun p => Re.test p (Js.toString stderr)) BENIGN_STDERR_PATTERNS)%bool.

Definition REDIRECT_MARKER : string := "2>/dev/null".

(** [isHarmlessExecFailure(command, exitCode, stderr)].  The two tests of
    rule 1 read the same string: ['2>\/dev\/null'] is ['2>/dev/null']. *)
Definition isHarmlessExecFailure (command : string) (exitCode : Z) (stderr : Js.value) : bool :=
  if (Str.includes REDIRECT_MARKER command || Str.includes REDIRECT_MARKER command)%bool
  then true
  else if ((exitCode =? 1) && benign_exit1_command command)%bool then true
  else if benign_stderr stderr then true
  else false.

(** The three patterns that recognise a message reporting an exit code:
    [/command exited with code \d+/i], [/exited with code \d+/i] and
    [/exit code[:\s]+\d+/i]; each is a prefix followed by [\d+]. *)
Definition re_digits : Re.regex := Re.Plus Re.CDigit.

Definition pre_command_exited : Re.regex := Re.Lit "command exited with code ".
Definition pre_exited : Re.regex := Re.Lit "exited with code ".
Definition pre_exit_code : Re.regex :=
  Re.Seq (Re.Lit "exit code") (Re.Plus Re.CColonSpace).

Definition re_command_exited : Re.pattern :=
  {| Re.ignoreCase := true; Re.body := Re.Seq pre_command_exited re_digits |}.

Definition re_exited : Re.pattern :=
  {| Re.ignoreCase := true; Re.body := Re.Seq pre_exited re_digits |}.

Definition re_exit_code : Re.pattern :=
  {| Re.ignoreCase := true; Re.body := Re.Seq pre_exit_code re_digits |}.

Definition isExecErrorMsg (content : string) : bool :=
  (Re.test re_command_exited content
   || Re.test re_exited content
   || Re.test re_exit_code content)%bool.

(** [content.match(/code[:\s]+(\d+)/i)] and [parseInt(codeMatch[1], 10)],
    0 when there is no match. *)
Definition codeMatch (content : string) : option string :=
  Re.match_capture true (Re.Seq (Re.Lit "code") (Re.Plus Re.CColonSpace)) re_digits content.

Definition extracted_exitCode (content : string) : Z :=
  match codeMatch content with
  | Some d => Str.parseInt10 d
  | None => 0
  end.

(** [isHarmlessExecMessage(content)]. *)
Definition isHarmlessExecMessage (content : string) : bool :=
  let lower := Str.toLowerCase content in
  if negb (isExecErrorMsg content) then false
  else if extracted_exitCode content >? 1 then false
  else if existsb (fun cmd => Str.includes cmd lower) BENIGN_EXIT1_COMMANDS then true
  else if Str.includes REDIRECT_MARKER lower then true
  else if Re.test re_no_matches_found content then true
  else false.

(* ===================================================================== *)
(** ** Outbound calls and handler outcomes

    [postJson(url, body, timeoutMs)] is the only way the plugin reaches the
    dashboard.  A handler is run in a small monad that collects the calls
    it issues, in order, and stops at a [TypeError] (a method called on a
    value that has none); [console.log] issues no call and is left out. *)

Module Handler.

(** A field of a request body: a value, [Number(v)] left unevaluated, or
    the text of the exec failure template literal
    (the warning sign, then [Exec failure (exit N): command]). *)
Inductive field : Type :=
  | V (v : Js.value)
  | NumberOf (v : Js.value)
  | ExecFailureText (exitCode : Z) (command : string).

Definition body : Type := list (string * field).

Record call : Type := { url : Js.value; payload : body; timeout : Js.value }.

Fixpoint field_of (k : string) (b : body) : option field :=
  match b with
  | [] => None
  | (k', f) :: r => if String.eqb k k' then Some f else field_of k r
  end.

(** The calls issued so far, and the result unless an exception was thrown. *)
Definition M (A : Type) : Type := (list call * option A)%type.

Definition ret {A} (a : A) : M A := ([], Some a).

Definition bind {A B} (m : M A) (f : A -> M B) : M B :=
  match m with
  | (cs, Some a) => let (cs', r) := f a in ((cs ++ cs')%list, r)
  | (cs, None) => (cs, None)
  end.

Definition throw {A} : M A := ([], None).

(** [void postJson(url, body, timeoutMs)]. *)
Definition post (c : call) : M unit := ([c], Some tt).

(** [when c m]: [if (c) { m }]. *)
Definition when (c : bool) (m : M unit) : M unit := if c then m else ret tt.

(** A string method called on [v]: a [TypeError] unless [v] is a string
    (a number, a boolean or a record has no [slice], [includes] or
    [toLowerCase] to call). *)
Definition as_string (v : Js.value) : M string :=
  match v with
  | Js.Str s => ret s
  | _ => throw
  end.

Definition calls {A} (m : M A) : list call := fst m.

End Handler.

Declare Scope handler_scope.
Delimit Scope handler_scope with handler.

Notation "x <- m ;; k" := (Handler.bind m (fun x => k))
  (at level 61, m at next level, right associativity) : handler_scope.
Notation "m ;;; k" := (Handler.bind m (fun _ => k))
  (at level 61, right associativity) : handler_scope.

(* ===================================================================== *)
(** ** The plugin ([src/index.ts], lines 130-280) *)

(** What [kccNotifyPlugin] resolves from [api.config] before it registers
    its handlers. *)
Record Plugin : Type := {
  workflowEndpoint : Js.value;
  messagesEndpoint : Js.value;
  timeoutMs : Js.value
}.

(** [kccNotifyPlugin(api)]: nothing is registered when [enabled] is
    [false]. *)
Definition kccNotifyPlugin (api_config : Js.value) : option Plugin :=
  let config := Js.or api_config (Js.Obj []) in
  let enabled := match Js.get config "enabled" with
                 | Js.Bool false => false
                 | _ => true
                 end in
  if negb enabled then None
  else Some {|
    workflowEndpoint := Js.or (Js.get config "endpoint") (Js.Str DEFAULT_WORKFLOW_ENDPOINT);
    messagesEndpoint := Js.or (Js.get config "messagesEndpoint") (Js.Str DEFAULT_MESSAGES_ENDPOINT);
    timeoutMs := Js.or (Js.get config "timeoutMs") (Js.Num DEFAULT_TIMEOUT_MS) |}.

Section Handlers.

Variable plugin : Plugin.

Import Handler.
Local Open Scope handler_scope.

Definition postJson (endpoint : Js.value) (b : body) : M unit :=
  post {| url := endpoint; payload := b; timeout := timeoutMs plugin |}.

(** [BOSS_SENDER_IDS.includes(String(id))]. *)
Definition is_boss (id : Js.value) : bool :=
  existsb (String.eqb (Js.toString id)) BOSS_SENDER_IDS.

(** [typeof content === 'string' ? content.slice(0, 200) : dflt]. *)
Definition slice200_or (dflt : string) (content : Js.value) : string :=
  match content with
  | Js.Str s => Str.slice0 200 s
  | _ => dflt
  end.

(** [messageId ? Number(messageId) : undefined]; the conversion is kept
    as written, not evaluated. *)
Definition messageId_field (messageId : Js.value) : field :=
  if Js.truthy messageId then NumberOf messageId else V Js.Undefined.

Definition start_flow (content from messageId : Js.value) : body :=
  [ ("action", V (Js.Str "start_flow"));
    ("content", V (Js.Str (slice200_or EmptyString content)));
    ("from", V from);
    ("agent", V (Js.Str "wickedman"));
    ("messageId", messageId_field messageId) ].

Definition feed (message : field) (from type : string) : body :=
  [ ("message", message); ("from", V (Js.Str from)); ("type", V (Js.Str type)) ].

(** The values the [message_received] hook reads from its event. *)
Definition received_senderId (event : Js.value) : Js.value :=
  Js.or (Js.get (Js.get event "metadata") "senderId") (Js.Str EmptyString).

Definition received_content (event : Js.value) : Js.value :=
  Js.or (Js.get event "content") (Js.Str EmptyString).

(** The [message_received] hook, [kcc-message-received]. *)
Definition onMessageReceived (event : Js.value) : M unit :=
  let senderId := received_senderId event in
  let content := received_content event in
  let messageId := Js.get (Js.get event "metadata") "messageId" in
  let senderName := Js.or (Js.get (Js.get event "metadata") "senderName") (Js.Str "Unknown") in
  let isBoss := is_boss senderId in
  when (isBoss && Js.truthy content)
    (_ <- as_string content ;;                     (* content.slice(0, 60), logged *)
     postJson (messagesEndpoint plugin) (feed (V content) "Boss" "received")) ;;;
  when isBoss
    (_ <- as_string content ;;
     postJson (workflowEndpoint plugin) (start_flow content senderName messageId)).

(** The values the [message_sent] hook reads from its event. *)
Definition sent_content (event : Js.value) : Js.value :=
  Js.or (Js.get event "content") (Js.or (Js.get event "text") (Js.Str EmptyString)).

Definition sent_recipientId (event : Js.value) : Js.value :=
  Js.or (Js.get (Js.get event "metadata") "recipientId")
        (Js.or (Js.get (Js.get event "metadata") "chatId") (Js.Str EmptyString)).

(** The [message_sent] hook, [kcc-message-sent]. *)
Definition onMessageSent (event : Js.value) : M unit :=
  let content := sent_content event in
  if negb (Js.truthy content) then ret tt
  else
    text <- as_string content ;;                   (* content.toLowerCase() *)
    if isHarmlessExecMessage text then ret tt
    else
      let recipientId := sent_recipientId event in
      let isToBoss := is_boss recipientId in
      when isToBoss
        (postJson (messagesEndpoint plugin) (feed (V content) "WickedMan" "sent") ;;;
         postJson (workflowEndpoint plugin)
           [ ("action", V (Js.Str "agent_complete"));
             ("agent", V (Js.Str "wickedman"));
             ("result", V (Js.Str (slice200_or "Task completed" content))) ]).

(** The values the [after_tool_call] hook derives from its event. *)
Definition exec_toolName (event : Js.value) : Js.value :=
  Js.or (Js.get event "toolName") (Js.or (Js.get event "name") (Js.Str EmptyString)).

Definition exec_result (event : Js.value) : Js.value :=
  Js.or (Js.get event "result") (Js.or (Js.get event "output") (Js.Obj [])).

Definition exec_status (event : Js.value) : Js.value :=
  Js.or (Js.get (exec_result event) "status") (Js.Str EmptyString).

Definition exec_exitCode (event : Js.value) : Z :=
  match Js.get (exec_result event) "exitCode" with
  | Js.Num n => n
  | _ => if Js.is_str (exec_status event) "error" then 1 else 0
  end.

(** The [after_tool_call] hook, [kcc-exec-filter]. *)
Definition onAfterToolCall (event : Js.value) : M unit :=
  if negb (Js.is_str (exec_toolName event) "exec") then ret tt
  else
    let result := exec_result event in
    let status := exec_status event in
    let exitCode := exec_exitCode event in
    if ((exitCode =? 0) && negb (Js.is_str status "error"))%bool then ret tt
    else
      let command := Js.or (Js.get (Js.get event "params") "command")
                           (Js.or (Js.get (Js.get event "input") "command")
                                  (Js.Str EmptyString)) in
      let stderr := Js.or (Js.get result "stderr")
                          (Js.or (Js.get result "error") (Js.Str EmptyString)) in
      cmd <- as_string command ;;                  (* command.includes(...) *)
      if isHarmlessExecFailure cmd exitCode stderr then ret tt
      else
        postJson (messagesEndpoint plugin)
          (feed (ExecFailureText exitCode (Str.slice0 150 cmd)) "System" "exec_error").

(** The response of the HTTP handler. *)
Record Response : Type := { status : Z; json : list (string * Js.value) }.

(** The manual route, [POST /kcc-notify], on the body [req.json()] parsed;
    [delivered] is what the awaited [postJson] resolves to: [response.ok],
    and [false] when the request failed or timed out.  Destructuring
    [undefined] or [null] throws. *)
Definition onManualNotify (delivered : call -> bool) (parsed : Js.value) : M Response :=
  if Js.is_nullish parsed then throw
  else
    let content := Js.get parsed "content" in
    let from := match Js.get parsed "from" with
                | Js.Undefined => Js.Str "Unknown"
                | v => v
                end in
    let messageId := Js.get parsed "messageId" in
    if negb (Js.truthy content) then
      ret {| status := 400; json := [("error", Js.Str "content is required")] |}
    else
      let c := {| url := workflowEndpoint plugin;
                  payload := start_flow content from messageId;
                  timeout := timeoutMs plugin |} in
      post c ;;;
      let success := delivered c in
      ret {| status := if success then 200 else 502;
             json := [("success", Js.Bool success)] |}.

End Handlers.

(** The plugin with no configuration. *)
Definition default_plugin : Plugin :=
  {| workflowEndpoint := Js.Str DEFAULT_WORKFLOW_ENDPOINT;
     messagesEndpoint := Js.Str DEFAULT_MESSAGES_ENDPOINT;
     timeoutMs := Js.Num DEFAULT_TIMEOUT_MS |}.

(* ===================================================================== *)
(** ** The Telegram mode watchdog (the shell script run from cron)

    One run of the script reads the four health probes and the clock,
    and acts on three files: the state file, the gateway's configuration
    and the log.  The run is modelled in a state monad over the files that
    also records, in order, the file operations and the restart calls it
    performs.  Writes, [mv] and the log are taken to succeed, so that
    [set -e] never cuts a run short. *)

Module Watchdog.

(** Shell arithmetic is signed, 64 bits wide, and wraps, on the result of
    an operation as on a decimal literal too large for it. *)
Definition INT64_MAX : Z := 9223372036854775807.

Definition wrap64 (z : Z) : Z := (z + 2 ^ 63) mod 2 ^ 64 - 2 ^ 63.

(** The value shell arithmetic gives the decimal text of an integer. *)
Definition sh_int (text : Z) : Z := wrap64 text.

Definition FAILURE_THRESHOLD : Z := 2.

(** The persisted state, a JSON record; [jq] is taken to read and write
    its integers exactly, and the time stamps are clock readings. *)
Record State : Type := {
  mode : string;
  failureCount : Z;
  lastCheck : Z;
  lastSwitch : Z
}.

(** The three fields of [.channels.telegram] the script edits; [None] is
    [null]. *)
Record Config : Type := {
  webhookUrl : option string;
  webhookSecret : option string;
  webhookPath : option string
}.

Inductive path : Type :=
  | STATE_FILE            (* /tmp/telegram-watchdog-state.json *)
  | LOG_FILE              (* /tmp/telegram-watchdog.log *)
  | OPENCLAW_CONFIG       (* $HOME/.openclaw/openclaw.json *)
  | OPENCLAW_CONFIG_TMP.  (* $OPENCLAW_CONFIG.tmp *)

Definition path_eqb (p q : path) : bool :=
  match p, q with
  | STATE_FILE, STATE_FILE | LOG_FILE, LOG_FILE
  | OPENCLAW_CONFIG, OPENCLAW_CONFIG
  | OPENCLAW_CONFIG_TMP, OPENCLAW_CONFIG_TMP => true
  | _, _ => false
  end.

Inductive logmsg : Type :=
  | Health (nginx cf openclaw kcc : bool) (current_mode : string) (failures : Z)
  | CriticalDownSwitching (n : Z)
  | WarningCriticalDown (n : Z)
  | ServicesRecovered
  | AllRecoveredSwitching (n : Z)
  | ServicesRecovering (n : Z)
  | SwitchingToPolling
  | SwitchedToPolling
  | SwitchingToWebhook
  | SwitchedToWebhook.

Inductive content : Type :=
  | StateJson (s : State)
  | ConfigJson (c : Config)
  | NoOutput.             (* what a failed [jq] leaves behind its redirection *)

(** What a run does to the world outside the shell. *)
Inductive op : Type :=
  | Overwrite (p : path) (c : content)   (* command > p : truncate p, write in place *)
  | Append (p : path) (m : logmsg)       (* echo ... >> p *)
  | Rename (src dst : path)              (* mv src dst *)
  | RestartGateway.                      (* curl -X POST .../api/gateway/restart *)

Record Files : Type := {
  state_file : option State;
  config_file : option Config;
  config_tmp : option content
}.

(** The probes and the clock of one run. *)
Record Env : Type := {
  nginx_ok : bool;        (* check_nginx: the reverse proxy *)
  cf_ok : bool;           (* check_cf_tunnel: the public tunnel *)
  openclaw_ok : bool;     (* check_openclaw: the gateway *)
  kcc_ok : bool;          (* check_kcc_office: optional *)
  now : Z                 (* jq's now *)
}.

Definition W (A : Type) : Type := Files -> (A * Files * list op).

Definition ret {A} (a : A) : W A := fun f => (a, f, []).

Definition bind {A B} (m : W A) (k : A -> W B) : W B :=
  fun f => let '(a, f1, o1) := m f in
           let '(b, f2, o2) := k a f1 in
           (b, f2, (o1 ++ o2)%list).

Definition files : W Files := fun f => (f, f, []).

Definition emit (o : op) (after : Files -> Files) : W unit :=
  fun f => (tt, after f, [o]).

End Watchdog.

Declare Scope watchdog_scope.
Delimit Scope watchdog_scope with watchdog.

Notation "x <- m ;; k" := (Watchdog.bind m (fun x => k))
  (at level 61, m at next level, right associativity) : watchdog_scope.
Notation "m ;;; k" := (Watchdog.bind m (fun _ => k))
  (at level 61, right associativity) : watchdog_scope.

Module Script.

Import Watchdog.
Local Open Scope watchdog_scope.

Definition log (m : logmsg) : W unit := emit (Append LOG_FILE m) (fun f => f).

Definition INITIAL_STATE : State :=
  {| mode := "webhook"; failureCount := 0; lastCheck := 0; lastSwitch := 0 |}.

Definition write_state (s : State) : W unit :=
  emit (Overwrite STATE_FILE (StateJson s))
       (fun f => {| state_file := Some s;
                    config_file := config_file f;
                    config_tmp := config_tmp f |}).

(** [init_state]: [echo '{...}' > "$STATE_FILE"] when the file is missing. *)
Definition init_state : W unit :=
  f <- files ;;
  match state_file f with
  | None => write_state INITIAL_STATE
  | Some _ => ret tt
  end.

(** [read_state]: [cat "$STATE_FILE"]. *)
Definition read_state : W (option State) :=
  f <- files ;; ret (state_file f).

(** [update_state]: [echo "$1" > "$STATE_FILE"]. *)
Definition update_state (s : State) : W unit := write_state s.

(** The [jq] filters applied to the state. *)
Definition jq_failureCount (n : Z) (s : State) : State :=
  {| mode := mode s; failureCount := n;
     lastCheck := lastCheck s; lastSwitch := lastSwitch s |}.

Definition jq_switch (m : string) (t : Z) (s : State) : State :=
  {| mode := m; failureCount := 0; lastCheck := lastCheck s; lastSwitch := t |}.

(** [jq FILTER "$OPENCLAW_CONFIG" > "$OPENCLAW_CONFIG.tmp" && mv ...]:
    the redirection creates the temporary file, and [mv] runs only when
    [jq] could read the configuration. *)
Definition rewrite_config (filter : Config -> Config) : W unit :=
  f <- files ;;
  match config_file f with
  | Some c =>
      emit (Overwrite OPENCLAW_CONFIG_TMP (ConfigJson (filter c)))
           (fun f => {| state_file := state_file f;
                        config_file := config_file f;
                        config_tmp := Some (ConfigJson (filter c)) |}) ;;;
      emit (Rename OPENCLAW_CONFIG_TMP OPENCLAW_CONFIG)
           (fun f => {| state_file := state_file f;
                        config_file := Some (filter c);
                        config_tmp := None |})
  | None =>
      emit (Overwrite OPENCLAW_CONFIG_TMP NoOutput)
           (fun f => {| state_file := state_file f;
                        config_file := config_file f;
                        config_tmp := Some NoOutput |})
  end.

(** [curl ... /api/gateway/restart ... || true]: its result is ignored. *)
Definition restart_gateway : W unit := emit RestartGateway (fun f => f).

Definition clear_webhook (c : Config) : Config :=
  {| webhookUrl := None; webhookSecret := None; webhookPath := None |}.

(** The secret is a literal of the script, a string that is not empty; it
    is not repeated here, and no property depends on its text. *)
Definition WEBHOOK_SECRET : string := "<webhookSecret>".

Definition set_webhook (c : Config) : Config :=
  {| webhookUrl := Some "https://office.itskcc.com/api/telegram/webhook";
     webhookSecret := Some WEBHOOK_SECRET;
     webhookPath := Some "/api/telegram/webhook" |}.

(** The tail of the two switches: the state is read back from the file,
    edited and written. *)
Definition record_switch (m : string) (t : Z) : W unit :=
  st <- read_state ;;
  match st with
  | Some s => update_state (jq_switch m t s)
  | None => emit (Overwrite STATE_FILE NoOutput) (fun f => f)
  end.

Definition switch_to_polling (e : Env) : W unit :=
  log SwitchingToPolling ;;;
  rewrite_config clear_webhook ;;;
  restart_gateway ;;;
  record_switch "polling" (now e) ;;;
  log SwitchedToPolling.

Definition switch_to_webhook (e : Env) : W unit :=
  log SwitchingToWebhook ;;;
  rewrite_config set_webhook ;;;
  restart_gateway ;;;
  record_switch "webhook" (now e) ;;;
  log SwitchedToWebhook.

(** [main].  The count read from the file is a decimal text; each
    arithmetic context ([$((...))], [-ge], [-gt]) evaluates it with
    [sh_int]. *)
Definition main (e : Env) : W unit :=
  init_state ;;;
  st <- read_state ;;
  match st with
  | None => ret tt      (* not reached: [init_state] has created the file *)
  | Some state =>
      let current_mode := mode state in
      let failure_count := failureCount state in
      log (Health (nginx_ok e) (cf_ok e) (openclaw_ok e) (kcc_ok e)
                  current_mode failure_count) ;;;
      if String.eqb current_mode "webhook" then
        if (negb (nginx_ok e) || negb (cf_ok e))%bool then
          let failure_count := wrap64 (sh_int failure_count + 1) in
          update_state (jq_failureCount failure_count state) ;;;
          if failure_count >=? FAILURE_THRESHOLD then
            log (CriticalDownSwitching failure_count) ;;;
            switch_to_polling e
          else log (WarningCriticalDown failure_count)
        else
          if sh_int failure_count >? 0 then
            update_state (jq_failureCount 0 state) ;;;
            log ServicesRecovered
          else ret tt
      else
        if (nginx_ok e && cf_ok e && openclaw_ok e)%bool then
          let failure_count := wrap64 (sh_int failure_count + 1) in
          update_state (jq_failureCount failure_count state) ;;;
          if failure_count >=? FAILURE_THRESHOLD then
            log (AllRecoveredSwitching failure_count) ;;;
            switch_to_webhook e
          else log (ServicesRecovering failure_count)
        else
          if sh_int failure_count >? 0 then
            update_state (jq_failureCount 0 state)
          else ret tt
  end.

(** One cron run on the files [f]: the files it leaves and what it did. *)
Definition run (e : Env) (f : Files) : Files * list op :=
  let '(_, f', ops) := main e f in (f', ops).

Definition after (e : Env) (f : Files) : Files := fst (run e f).
Definition ops_of (e : Env) (f : Files) : list op := snd (run e f).

(** The mode switches among the operations of a run: each switch restarts
    the gateway once, and nothing else does. *)
Definition is_restart (o : op) : bool :=
  match o with RestartGateway => true | _ => false end.

Definition switches (ops : list op) : nat := List.length (filter is_restart ops).

Definition with_state (s : State) (c : option Config) : Files :=
  {| state_file := Some s; config_file := c; config_tmp := None |}.

End Script.

(* ===================================================================== *)
(** ** The earlier revision of the plugin ([src/index.ts], second part)

    Before the hooks existed the plugin had the manual route only, served
    by [notifyKccOffice].  The request body is built inside the [try], so a
    [content] without a [slice] method is caught there and reported as a
    failed delivery. *)

Module Legacy.

Import Handler.
Local Open Scope handler_scope.

Definition DEFAULT_ENDPOINT : string := "http://localhost:4200/api/workflow".

(** [kccNotifyPlugin(api)] of that revision: one endpoint, one timeout. *)
Definition kccNotifyPlugin (api_config : Js.value) : option Plugin :=
  let config := Js.or api_config (Js.Obj []) in
  let endpoint := Js.or (Js.get config "endpoint") (Js.Str DEFAULT_ENDPOINT) in
  let enabled := match Js.get config "enabled" with
                 | Js.Bool false => false
                 | _ => true
                 end in
  if negb enabled then None
  else Some {| workflowEndpoint := endpoint;
               messagesEndpoint := endpoint;
               timeoutMs := Js.or (Js.get config "timeoutMs") (Js.Num DEFAULT_TIMEOUT_MS) |}.

Definition new_request (content : string) (from messageId : Js.value) : body :=
  [ ("action", V (Js.Str "new_request"));
    ("content", V (Js.Str content));
    ("from", V from);
    ("tgMessageId", V messageId) ].

(** [notifyKccOffice(endpoint, content, from, messageId, timeoutMs)]:
    [response.ok], and [false] for anything thrown inside the [try],
    [content.slice] on a number, a boolean or a record included. *)
Definition notifyKccOffice (delivered : call -> bool)
    (endpoint content from messageId timeoutMs : Js.value) : M bool :=
  match content with
  | Js.Str s =>
      let c := {| url := endpoint;
                  payload := new_request (Str.slice0 200 s) from messageId;
                  timeout := timeoutMs |} in
      post c ;;; ret (delivered c)
  | _ => ret false
  end.

(** The manual route of that revision. *)
Definition onManualNotify (plugin : Plugin) (delivered : call -> bool)
    (parsed : Js.value) : M Response :=
  if Js.is_nullish parsed then throw
  else
    let content := Js.get parsed "content" in
    let from := match Js.get parsed "from" with
                | Js.Undefined => Js.Str "Unknown"
                | v => v
                end in
    let messageId := Js.get parsed "messageId" in
    if negb (Js.truthy content) then
      ret {| status := 400; json := [("error", Js.Str "content is required")] |}
    else
      success <- notifyKccOffice delivered (workflowEndpoint plugin) content from
                   messageId (timeoutMs plugin) ;;
      ret {| status := if success then 200 else 502;
             json := [("success", Js.Bool success)] |}.

End Legacy.

(* ===================================================================== *)
(** * The vocabulary of the properties *)

Section Vocabulary.

Import Handler Watchdog Script.

(** The exit codes a message reports: the numbers read by [\d+] in the
    matches of the recognising patterns, by start position (a match of
    [/command exited with code \d+/i] is one of [/exited with code \d+/i]
    and is not counted again). *)
Definition reported_at (pre : Re.regex) (content : string) : list Z :=
  flat_map (fun st => match Re.first_capture_at true pre re_digits st with
                      | Some d => [Str.parseInt10 d]
                      | None => []
                      end)
           (Re.starts 0 content).

Definition reported_codes (content : string) : list Z :=
  (reported_at pre_exited content ++ reported_at pre_exit_code content)%list.


(** Events and bodies the properties are tried on. *)
Definition boss_event (content : string) : Js.value :=
  Js.Obj [ ("content", Js.Str content);
           ("metadata", Js.Obj [("senderId", Js.Str "167090545")]) ].

Definition long_content : string :=
  string_of_list_ascii (List.repeat "a"%char 201).

Definition grep_report_to_boss : Js.value :=
  Js.Obj [ ("content", Js.Str "grep exited with code 1");
           ("metadata", Js.Obj [("recipientId", Js.Str "167090545")]) ].

Definition exec_event (result : list (string * Js.value)) : Js.value :=
  Js.Obj [ ("toolName", Js.Str "exec");
           ("result", Js.Obj result);
           ("params", Js.Obj [("command", Js.Str "make all")]) ].

Definition failed_make : Js.value := exec_event [("status", Js.Str "error")].
Definition clean_exec : Js.value := exec_event [("status", Js.Str "completed")].
Definition exec_exit_3 : Js.value := exec_event [("exitCode", Js.Num 3)].

Definition read_file_call : Js.value :=
  Js.Obj [ ("toolName", Js.Str "read");
           ("result", Js.Obj [("status", Js.Str "error")]) ].

Definition content_x_body : Js.value := Js.Obj [("content", Js.Str "x")].

(** The probes that send the watchdog to polling, and back to webhook. *)
Definition webhook_down (e : Env) : bool := (negb (nginx_ok e) || negb (cf_ok e))%bool.
Definition all_up (e : Env) : bool := (nginx_ok e && cf_ok e && openclaw_ok e)%bool.

(** The state a run starts from: the one on file, or the one a missing
    file stands for. *)
Definition starting (f : Files) : State :=
  match state_file f with
  | Some s => s
  | None => INITIAL_STATE
  end.

(** The transition one run makes on the persisted state, and whether it
    switched the mode: [main] with the files and the log taken away. *)
Definition next (e : Env) (s : State) : State * bool :=
  let n := wrap64 (sh_int (failureCount s) + 1) in
  let reset := if sh_int (failureCount s) >? 0 then jq_failureCount 0 s else s in
  if String.eqb (mode s) "webhook" then
    if webhook_down e then
      if n >=? FAILURE_THRESHOLD then (jq_switch "polling" (now e) s, true)
      else (jq_failureCount n s, false)
    else (reset, false)
  else
    if all_up e then
      if n >=? FAILURE_THRESHOLD then (jq_switch "webhook" (now e) s, true)
      else (jq_failureCount n s, false)
    else (reset, false).

(** Environments and files the properties are tried on. *)
Definition probes (nginx cf openclaw : bool) (t : Z) : Env :=
  {| nginx_ok := nginx; cf_ok := cf; openclaw_ok := openclaw; kcc_ok := true; now := t |}.

Definition proxy_down : Z -> Env := probes false true true.
Definition gateway_down : Z -> Env := probes true true false.
Definition all_ok : Z -> Env := probes true true true.

Definition no_files : Files :=
  {| state_file := None; config_file := None; config_tmp := None |}.

Definition polling_state (n : Z) : State :=
  {| mode := "polling"; failureCount := n; lastCheck := 0; lastSwitch := 120 |}.

Definition polling_after_one_success : Files := with_state (polling_state 1) None.

Definition webhook_at_max : Files :=
  with_state {| mode := "webhook"; failureCount := INT64_MAX;
                lastCheck := 0; lastSwitch := 0 |} None.

Definition configured : option Config :=
  Some {| webhookUrl := None; webhookSecret := None; webhookPath := None |}.

(** How an operation touches a file. *)
Definition writes_to (p : path) (o : op) : bool :=
  match o with
  | Overwrite q _ => path_eqb p q
  | Append q _ => path_eqb p q
  | Rename _ dst => path_eqb p dst
  | RestartGateway => false
  end.

Definition overwrites (p : path) (o : op) : bool :=
  match o with
  | Overwrite q _ => path_eqb p q
  | _ => false
  end.

Definition renames_into (p : path) (o : op) : bool :=
  match o with
  | Rename _ dst => path_eqb p dst
  | _ => false
  end.

(** [p] is only ever replaced whole, by a rename onto it. *)
Definition replaced_by_rename (p : path) (ops : list op) : bool :=
  forallb (fun o => implb (writes_to p o) (renames_into p o)) ops.

(** [p] is only ever written in place. *)
Definition overwritten_in_place (p : path) (ops : list op) : bool :=
  forallb (fun o => implb (writes_to p o) (overwrites p o)) ops.

(** The command and the error text the [after_tool_call] hook reads. *)
Definition exec_command (event : Js.value) : Js.value :=
  Js.or (Js.get (Js.get event "params") "command")
        (Js.or (Js.get (Js.get event "input") "command") (Js.Str EmptyString)).

Definition exec_stderr (event : Js.value) : Js.value :=
  Js.or (Js.get (exec_result event) "stderr")
        (Js.or (Js.get (exec_result event) "error") (Js.Str EmptyString)).

(** The field [k] of a call, when present, is a string of at most [n]
    code units. *)
Definition text_within (n : nat) (k : string) (c : call) : Prop :=
  match field_of k (payload c) with
  | None => True
  | Some (V (Js.Str s)) => (String.length s <= n)%nat
  | Some _ => False
  end.

(** A call goes to one of the plugin's two endpoints, under its timeout. *)
Definition to_dashboard (plugin : Plugin) (c : call) : Prop :=
  (url c = messagesEndpoint plugin \/ url c = workflowEndpoint plugin)
  /\ timeout c = timeoutMs plugin.

(** Consecutive runs of the watchdog, one per set of probes. *)
Fixpoint runs (es : list Env) (f : Files) : Files * list op :=
  match es with
  | [] => (f, [])
  | e :: rest => let (f', ops) := runs rest (after e f) in
                 (f', (ops_of e f ++ ops)%list)
  end.

(** The same probes with the optional one, the dashboard's, reversed. *)
Definition flip_kcc (e : Env) : Env :=
  {| nginx_ok := nginx_ok e; cf_ok := cf_ok e; openclaw_ok := openclaw_ok e;
     kcc_ok := negb (kcc_ok e); now := now e |}.

Definition is_health_line (o : op) : bool :=
  match o with
  | Append _ (Health _ _ _ _ _ _) => true
  | _ => false
  end.

(** [t] is what is left of [s] after some of its code units. *)
Definition suffix_of (s t : string) : Prop := exists a, s = a ++ t.

(** A code unit of a pattern that is ASCII and no capital letter. *)
Definition plainb (a : ascii) : bool :=
  (N.ltb (Str.code a) 128 && Ascii.eqb (Str.fold_ascii a) a)%bool.

Fixpoint all_plain (l : string) : bool :=
  match l with
  | EmptyString => true
  | String a r => (plainb a && all_plain r)%bool
  end.

(** More events the properties are tried on. *)
Definition boss_metadata : Js.value := Js.Obj [("senderId", Js.Num 167090545)].

Definition reply_to_boss (text : string) : Js.value :=
  Js.Obj [ ("text", Js.Str text);
           ("metadata", Js.Obj [("chatId", Js.Num 167090545)]) ].

Definition exec_with (command : string) (result : list (string * Js.value)) : Js.value :=
  Js.Obj [ ("name", Js.Str "exec");
           ("output", Js.Obj result);
           ("input", Js.Obj [("command", Js.Str command)]) ].

(** A count the shell increments without overflow. *)
Definition small_count (n : Z) : Prop := 0 <= n < INT64_MAX.

(** [String(v)] and [Number(v)] return on [v]: a primitive, or an object
    with no [toString] of its own.  The values hold no function, so an own
    [toString] cannot be called, and the conversion of such an object
    throws a [TypeError]. *)
Definition converts (v : Js.value) : bool := negb (Js.has v "toString").

(** A number or a boolean: a primitive that has no [slice] method. *)
Definition is_number_or_boolean (v : Js.value) : bool :=
  match v with
  | Js.Num _ | Js.Bool _ => true
  | _ => false
  end.

(** An event of the Boss, and a tool call, with a field that cannot be
    converted. *)
Definition unconvertible : Js.value := Js.Obj [("toString", Js.Num 0)].

Definition boss_event_with_id (messageId : Js.value) : Js.value :=
  Js.Obj [ ("metadata", Js.Obj [ ("senderId", Js.Num 167090545);
                                 ("messageId", messageId) ]) ].

End Vocabulary.

(* ===================================================================== *)
(** * Properties of the exec failure filter *)

Section FilterProperties.

(** Rule 2 is read only at exit code 1. *)
Lemma isHarmlessExecFailure_not_exit1 (command : string) (exitCode : Z) (stderr : Js.value) :
  exitCode <> 1 ->
  isHarmlessExecFailure command exitCode stderr
  = (Str.includes REDIRECT_MARKER command || benign_stderr stderr)%bool.
Proof.
  intros Hne. unfold isHarmlessExecFailure.
  destruct (Str.includes REDIRECT_MARKER command); cbn [orb]; [reflexivity|].
  replace (exitCode =? 1) with false by (symmetry; apply Z.eqb_neq; exact Hne).
  cbn [andb]. destruct (benign_stderr stderr); reflexivity.
Qed.

Lemma benign_stderr_true (stderr : Js.value) :
  benign_stderr stderr = true <->
  Js.truthy stderr = true /\
  exists p, In p BENIGN_STDERR_PATTERNS /\ Re.test p (Js.toString stderr) = true.
Proof.
  unfold benign_stderr. rewrite andb_true_iff, existsb_exists. reflexivity.
Qed.

(** C7.  For an exit code above 1, [isHarmlessExecFailure] answers [true]
    exactly when the command contains the marker [2>/dev/null] or the
    (non-empty) stderr matches one of the two fixed patterns; in particular
    a benign command of the allow-list does not make it answer [true]. *)
Theorem isHarmlessExecFailure_above_1 (command : string) (exitCode : Z) (stderr : Js.value) :
  exitCode > 1 ->
  (isHarmlessExecFailure command exitCode stderr = true <->
     Str.includes "2>/dev/null" command = true
     \/ (Js.truthy stderr = true
         /\ exists p, In p BENIGN_STDERR_PATTERNS
                      /\ Re.test p (Js.toString stderr) = true))
  /\ (Str.includes "2>/dev/null" command = false ->
      benign_stderr stderr = false ->
      isHarmlessExecFailure command exitCode stderr = false).
Proof.
  intros Hgt.
  assert (Hne : exitCode <> 1) by lia.
  rewrite (isHarmlessExecFailure_not_exit1 command exitCode stderr Hne).
  fold REDIRECT_MARKER. split.
  - rewrite orb_true_iff, benign_stderr_true. reflexivity.
  - intros -> ->. reflexivity.
Qed.

(** At exit code 2 the command [grep foo] is reported even though the
    allow-list rule accepts it, and it is suppressed at exit code 1; a
    [zsh] glob failure is suppressed at exit code 2. *)
Lemma isHarmlessExecFailure_above_1_witness :
  2 > 1
  /\ benign_exit1_command "grep foo" = true
  /\ isHarmlessExecFailure "grep foo" 1 (Js.Str EmptyString) = true
  /\ isHarmlessExecFailure "grep foo" 2 (Js.Str EmptyString) = false
  /\ isHarmlessExecFailure "ls *.x" 2 (Js.Str "zsh: no matches found: *.x") = true.
Proof.
  assert (H2 : 2 > 1) by lia.
  split; [exact H2|]. split; [reflexivity|]. split; [reflexivity|]. split.
  - apply (proj2 (isHarmlessExecFailure_above_1 "grep foo" 2 (Js.Str EmptyString) H2));
      reflexivity.
  - apply (proj1 (isHarmlessExecFailure_above_1 "ls *.x" 2
                    (Js.Str "zsh: no matches found: *.x") H2)).
    right. split; [reflexivity|].
    exists re_no_matches_found. split; [left; reflexivity | reflexivity].
Defined.

(** What the code does guarantee: a message is kept as soon as the number
    after the first [code] of its text, the one [codeMatch] reads,
    exceeds 1. *)
Lemma isHarmlessExecMessage_extracted_above_1 (content : string) :
  extracted_exitCode content > 1 -> isHarmlessExecMessage content = false.
Proof.
  intros H. unfold isHarmlessExecMessage.
  destruct (isExecErrorMsg content); cbn [negb]; [|reflexivity].
  replace (extracted_exitCode content >? 1) with true; [reflexivity|].
  symmetry. apply Z.gtb_lt. lia.
Qed.

Example isHarmlessExecMessage_code_2 :
  isHarmlessExecMessage "Command exited with code 2" = false.
Proof. reflexivity. Qed.

Example isHarmlessExecMessage_grep_code_1 :
  isHarmlessExecMessage "grep exited with code 1" = true.
Proof. reflexivity. Qed.

(** C8.  The message [Status code: 0. grep exited with code 2] reports one
    exit code, 2, and is nevertheless classified harmless: the number is
    read after the first [code] of the text, here the 0 of [Status code: 0],
    not after the [exited with code] that made the text an exec report. *)
Theorem isHarmlessExecMessage_misses_reported_code :
  isExecErrorMsg "Status code: 0. grep exited with code 2" = true
  /\ reported_codes "Status code: 0. grep exited with code 2" = [2]
  /\ codeMatch "Status code: 0. grep exited with code 2" = Some "0"
  /\ isHarmlessExecMessage "Status code: 0. grep exited with code 2" = true.
Proof. vm_compute. repeat split. Qed.

End FilterProperties.

(* ===================================================================== *)
(** * Properties of the handlers *)

Section HandlerProperties.

Import Handler.
Local Open Scope handler_scope.

#[local] Arguments Str.slice0 : simpl never.



Lemma is_str_true (v : Js.value) (lit : string) :
  Js.is_str v lit = true <-> v = Js.Str lit.
Proof.
  destruct v; cbn; try (split; [discriminate | intros H; discriminate H]).
  split.
  - intros H. apply String.eqb_eq in H. subst. reflexivity.
  - intros H. injection H as ->. apply String.eqb_refl.
Qed.

Lemma is_str_false (v : Js.value) (lit : string) :
  Js.is_str v lit = false <-> v <> Js.Str lit.
Proof.
  rewrite <- is_str_true. destruct (Js.is_str v lit); split; congruence.
Qed.


(** With no configuration the plugin is registered with its defaults. *)
Lemma kccNotifyPlugin_default : kccNotifyPlugin Js.Undefined = Some default_plugin.
Proof. reflexivity. Qed.




(** C5.  A [message_sent] event whose content [isHarmlessExecMessage]
    accepts issues no call, whatever its recipient; so does the content
    [Command exited with code 1 (grep)] under any metadata. *)
Theorem onMessageSent_suppresses_harmless (plugin : Plugin) :
  (forall (event : Js.value) (text : string),
      sent_content event = Js.Str text ->
      isHarmlessExecMessage text = true ->
      onMessageSent plugin event = ([], Some tt))
  /\ (forall metadata : Js.value,
        onMessageSent plugin
          (Js.Obj [ ("content", Js.Str "Command exited with code 1 (grep)");
                    ("metadata", metadata) ]) = ([], Some tt)).
Proof.
  assert (H : forall event text,
             sent_content event = Js.Str text ->
             isHarmlessExecMessage text = true ->
             onMessageSent plugin event = ([], Some tt)).
  { intros event text Hc Hh. unfold onMessageSent. rewrite Hc.
    destruct (Js.truthy (Js.Str text)); cbn; [|reflexivity].
    rewrite Hh. reflexivity. }
  split; [exact H|].
  intros metadata. apply (H _ "Command exited with code 1 (grep)"); reflexivity.
Qed.

Lemma onMessageSent_suppresses_harmless_witness :
  sent_content grep_report_to_boss = Js.Str "grep exited with code 1"
  /\ isHarmlessExecMessage "grep exited with code 1" = true
  /\ is_boss (sent_recipientId grep_report_to_boss) = true
  /\ onMessageSent default_plugin grep_report_to_boss = ([], Some tt).
Proof.
  split; [reflexivity|]. split; [reflexivity|]. split; [reflexivity|].
  apply (proj1 (onMessageSent_suppresses_harmless default_plugin)
           grep_report_to_boss "grep exited with code 1"); reflexivity.
Defined.

(** C6.  The [after_tool_call] hook does nothing unless the tool is
    [exec]; the exit code is the result's [exitCode] when that is a number,
    else 1 when the status is [error], else 0; with exit code 0 and a
    status other than [error] no call is issued; and a call that is issued
    reports that exit code. *)
Theorem onAfterToolCall_exec_only (plugin : Plugin) (event : Js.value) :
  (exec_toolName event <> Js.Str "exec" ->
     onAfterToolCall plugin event = ([], Some tt))
  /\ (forall n, Js.get (exec_result event) "exitCode" = Js.Num n ->
                exec_exitCode event = n)
  /\ ((forall n, Js.get (exec_result event) "exitCode" <> Js.Num n) ->
      exec_status event = Js.Str "error" -> exec_exitCode event = 1)
  /\ ((forall n, Js.get (exec_result event) "exitCode" <> Js.Num n) ->
      exec_status event <> Js.Str "error" -> exec_exitCode event = 0)
  /\ (exec_exitCode event = 0 -> exec_status event <> Js.Str "error" ->
      onAfterToolCall plugin event = ([], Some tt))
  /\ (forall c, In c (calls (onAfterToolCall plugin event)) ->
        exists command,
          field_of "message" (payload c)
          = Some (ExecFailureText (exec_exitCode event) command)).
Proof.
  split.
  { intros H. apply is_str_false in H. unfold onAfterToolCall. rewrite H. reflexivity. }
  split.
  { intros n H. unfold exec_exitCode. rewrite H. reflexivity. }
  split.
  { intros Hn Hs. unfold exec_exitCode.
    destruct (Js.get (exec_result event) "exitCode") eqn:E;
      try (apply is_str_true in Hs; rewrite Hs; reflexivity).
    exfalso. exact (Hn _ eq_refl). }
  split.
  { intros Hn Hs. unfold exec_exitCode.
    destruct (Js.get (exec_result event) "exitCode") eqn:E;
      try (apply is_str_false in Hs; rewrite Hs; reflexivity).
    exfalso. exact (Hn _ eq_refl). }
  split.
  { intros H0 Hs. apply is_str_false in Hs. unfold onAfterToolCall.
    destruct (Js.is_str (exec_toolName event) "exec"); cbn [negb]; [|reflexivity].
    rewrite H0, Hs. reflexivity. }
  intros c. unfold onAfterToolCall.
  destruct (Js.is_str (exec_toolName event) "exec"); cbn [negb]; [|intros []].
  destruct ((exec_exitCode event =? 0) && negb (Js.is_str (exec_status event) "error"))%bool;
    [intros []|].
  match goal with |- context [as_string ?v] => destruct v end; cbn; try (intros []).
  match goal with |- context [isHarmlessExecFailure ?a ?b ?d] =>
    destruct (isHarmlessExecFailure a b d) end; cbn; [intros []|].
  intros [<-|[]]. eexists. reflexivity.
Qed.

Lemma onAfterToolCall_exec_only_witness :
  onAfterToolCall default_plugin read_file_call = ([], Some tt)
  /\ exec_exitCode exec_exit_3 = 3
  /\ exec_exitCode failed_make = 1
  /\ exec_exitCode clean_exec = 0
  /\ onAfterToolCall default_plugin clean_exec = ([], Some tt)
  /\ (exists c command,
        calls (onAfterToolCall default_plugin failed_make) = [c]
        /\ field_of "message" (payload c) = Some (ExecFailureText 1 command)).
Proof.
  destruct (onAfterToolCall_exec_only default_plugin read_file_call) as (A1 & _).
  destruct (onAfterToolCall_exec_only default_plugin exec_exit_3) as (_ & A2 & _).
  destruct (onAfterToolCall_exec_only default_plugin failed_make)
    as (_ & _ & A3 & _ & _ & A6).
  destruct (onAfterToolCall_exec_only default_plugin clean_exec)
    as (_ & _ & _ & A4 & A5 & _).
  split; [apply A1; cbn; discriminate|].
  split; [apply A2; reflexivity|].
  split; [apply A3; [intros n; cbn; discriminate | reflexivity]|].
  split; [apply A4; [intros n; cbn; discriminate | cbn; discriminate]|].
  split; [apply A5; [reflexivity | cbn; discriminate]|].
  eexists. destruct (A6 _ (or_introl eq_refl)) as (command & Hc).
  exists command. split; [reflexivity | exact Hc].
Defined.




End HandlerProperties.

(* ===================================================================== *)
(** * Properties of the watchdog *)

Section WatchdogProperties.

Import Watchdog Script.

Lemma wrap64_small (z : Z) : - 2 ^ 63 <= z < 2 ^ 63 -> wrap64 z = z.
Proof. intros H. unfold wrap64. rewrite Z.mod_small; lia. Qed.

Lemma sh_int_count (n : Z) : 0 <= n <= INT64_MAX -> sh_int n = n.
Proof. intros H. apply wrap64_small. unfold INT64_MAX in H. lia. Qed.

Lemma sh_succ (n : Z) : 0 <= n < INT64_MAX -> wrap64 (sh_int n + 1) = n + 1.
Proof.
  intros H. rewrite (sh_int_count n) by lia. apply wrap64_small. unfold INT64_MAX in H. lia.
Qed.

Lemma gtb_true (n m : Z) : m < n -> (n >? m) = true.
Proof. intros H. rewrite Z.gtb_ltb. apply Z.ltb_lt. exact H. Qed.

Ltac unfold_run :=
  unfold after, ops_of, run, main, init_state, read_state, update_state, write_state,
    switch_to_polling, switch_to_webhook, record_switch, rewrite_config,
    restart_gateway, log, files, emit, Watchdog.bind, Watchdog.ret.

(** A run moves the persisted state as [next] says, and restarts the
    gateway once when [next] switches, never otherwise. *)
Lemma run_next (e : Env) (f : Files) :
  state_file (after e f) = Some (fst (next e (starting f)))
  /\ switches (ops_of e f) = if snd (next e (starting f)) then 1%nat else 0%nat.
Proof.
  destruct f as [[s|] cf ct]; unfold starting, next, webhook_down, all_up; cbn [state_file];
    unfold_run; cbn;
    repeat match goal with
      | |- context [if ?c then _ else _] => destruct c eqn:?; cbn
      | |- context [match ?c with Some _ => _ | None => _ end] => destruct c eqn:?; cbn
      end;
    try (split; reflexivity); try discriminate.
Qed.

Lemma state_after (e : Env) (f : Files) :
  state_file (after e f) = Some (fst (next e (starting f))).
Proof. apply run_next. Qed.

Lemma starting_after (e : Env) (f : Files) :
  starting (after e f) = fst (next e (starting f)).
Proof. unfold starting at 1. rewrite state_after. reflexivity. Qed.

Lemma switches_app (a b : list op) : switches (a ++ b) = (switches a + switches b)%nat.
Proof. unfold switches. rewrite filter_app, length_app. reflexivity. Qed.

Lemma jq_failureCount_same (s : State) : jq_failureCount (failureCount s) s = s.
Proof. destruct s. reflexivity. Qed.

(** C3.  From the state [{mode: webhook, failureCount: 0}] (on file, or
    standing for a missing file), one run that finds the reverse proxy down
    persists [failureCount = 1] and switches nothing; a second such run
    makes the one switch of the two, to polling, with [failureCount] back
    at 0 and [lastSwitch] set to the clock of that run. *)
Theorem two_runs_proxy_down_switch_to_polling (e1 e2 : Env) (f : Files) :
  mode (starting f) = "webhook" ->
  failureCount (starting f) = 0 ->
  nginx_ok e1 = false ->
  nginx_ok e2 = false ->
  state_file (after e1 f) = Some (jq_failureCount 1 (starting f))
  /\ switches (ops_of e1 f) = 0%nat
  /\ state_file (after e2 (after e1 f))
     = Some {| mode := "polling"; failureCount := 0;
               lastCheck := lastCheck (starting f); lastSwitch := now e2 |}
  /\ switches (ops_of e1 f ++ ops_of e2 (after e1 f)) = 1%nat.
Proof.
  intros Hm Hc H1 H2.
  assert (N1 : next e1 (starting f) = (jq_failureCount 1 (starting f), false)).
  { unfold next, webhook_down. rewrite Hm, Hc, H1. reflexivity. }
  assert (N2 : next e2 (jq_failureCount 1 (starting f))
               = (jq_switch "polling" (now e2) (starting f), true)).
  { unfold next, webhook_down. cbn [mode failureCount jq_failureCount].
    rewrite Hm, H2. reflexivity. }
  destruct (run_next e1 f) as [S1 W1]. rewrite N1 in S1, W1. cbn in S1, W1.
  destruct (run_next e2 (after e1 f)) as [S2 W2].
  rewrite starting_after, N1 in S2, W2. cbn [fst] in S2, W2.
  rewrite N2 in S2, W2. cbn in S2, W2.
  rewrite switches_app, W1, W2. repeat split; assumption.
Qed.

Lemma two_runs_proxy_down_switch_to_polling_witness :
  mode (starting no_files) = "webhook"
  /\ failureCount (starting no_files) = 0
  /\ state_file (after (proxy_down 60) no_files)
     = Some {| mode := "webhook"; failureCount := 1; lastCheck := 0; lastSwitch := 0 |}
  /\ state_file (after (proxy_down 120) (after (proxy_down 60) no_files))
     = Some {| mode := "polling"; failureCount := 0; lastCheck := 0; lastSwitch := 120 |}.
Proof.
  split; [reflexivity|]. split; [reflexivity|].
  destruct (two_runs_proxy_down_switch_to_polling (proxy_down 60) (proxy_down 120) no_files
              eq_refl eq_refl eq_refl eq_refl) as (H1 & _ & H2 & _).
  split; [exact H1 | exact H2].
Defined.

(** C9, as stated, fails beyond the largest integer of the shell: the
    count 9223372036854775808 (2^63) reads as a negative number, so the
    test [-gt 0] fails and a run in polling mode that finds the gateway
    down leaves that count on file instead of 0. *)
Lemma polling_adverse_run_keeps_large_count :
  mode (polling_state 9223372036854775808) = "polling"
  /\ openclaw_ok (gateway_down 60) = false
  /\ state_file (after (gateway_down 60)
                   (with_state (polling_state 9223372036854775808) None))
     = Some {| mode := "polling"; failureCount := 9223372036854775808;
               lastCheck := 0; lastSwitch := 120 |}
  /\ 9223372036854775808 <> 0.
Proof.
  split; [reflexivity|]. split; [reflexivity|]. split; [vm_compute; reflexivity|].
  discriminate.
Qed.

(** C9, amended.  In polling mode, from a count [n] with
    [0 <= n <= 2^63 - 1], a run that finds the reverse proxy, the tunnel or
    the gateway down persists [failureCount = 0] and leaves the mode alone,
    switching nothing; a further such run, with the same or any other
    adverse probes, changes nothing in the persisted state. *)
Theorem polling_adverse_run_keeps_zero (e : Env) (f : Files) :
  mode (starting f) = "polling" ->
  0 <= failureCount (starting f) <= INT64_MAX ->
  nginx_ok e = false \/ cf_ok e = false \/ openclaw_ok e = false ->
  state_file (after e f) = Some (jq_failureCount 0 (starting f))
  /\ switches (ops_of e f) = 0%nat
  /\ (forall e' : Env,
        nginx_ok e' = false \/ cf_ok e' = false \/ openclaw_ok e' = false ->
        state_file (after e' (after e f)) = state_file (after e f)).
Proof.
  intros Hm Hc Hd.
  assert (A : forall e0, nginx_ok e0 = false \/ cf_ok e0 = false \/ openclaw_ok e0 = false ->
                         all_up e0 = false).
  { intros e0 [H|[H|H]]; unfold all_up; rewrite H;
      repeat rewrite ?andb_false_r, ?andb_false_l; reflexivity. }
  assert (N : forall e0 s, mode s = "polling" -> 0 <= failureCount s <= INT64_MAX ->
                           all_up e0 = false ->
                           next e0 s = (jq_failureCount 0 s, false)).
  { intros e0 s Hms Hcs Hu. unfold next. rewrite Hms, Hu, (sh_int_count _ Hcs). cbn.
    destruct (Z.eq_dec (failureCount s) 0) as [E|E].
    - rewrite E. cbn. rewrite <- E at 1. rewrite jq_failureCount_same. reflexivity.
    - rewrite gtb_true by lia. reflexivity. }
  destruct (run_next e f) as [S1 W1].
  rewrite (N e _ Hm Hc (A e Hd)) in S1, W1. cbn in S1, W1.
  split; [exact S1|]. split; [exact W1|].
  intros e' Hd'. rewrite (state_after e' (after e f)), starting_after.
  rewrite (N e _ Hm Hc (A e Hd)). cbn [fst].
  rewrite (N e' (jq_failureCount 0 (starting f)));
    [symmetry; exact S1 | exact Hm | cbn; unfold INT64_MAX; lia | exact (A e' Hd')].
Qed.

Lemma polling_adverse_run_keeps_zero_witness :
  0 <= failureCount (starting polling_after_one_success) <= INT64_MAX
  /\ state_file (after (gateway_down 180) polling_after_one_success)
     = Some (polling_state 0)
  /\ switches (ops_of (gateway_down 180) polling_after_one_success) = 0%nat
  /\ state_file (after (gateway_down 240) (after (gateway_down 180) polling_after_one_success))
     = state_file (after (gateway_down 180) polling_after_one_success).
Proof.
  assert (Hc : 0 <= failureCount (starting polling_after_one_success) <= INT64_MAX)
    by (vm_compute; split; discriminate).
  destruct (polling_adverse_run_keeps_zero (gateway_down 180) polling_after_one_success
              eq_refl Hc (or_intror (or_intror eq_refl))) as (H1 & H2 & H3).
  split; [exact Hc|]. split; [exact H1|]. split; [exact H2|].
  apply (H3 (gateway_down 240)). right. right. reflexivity.
Defined.

(** C10, as stated, fails at the largest integer of the shell: from a
    count of 9223372036854775807 the increment wraps, and the run persists
    a negative count, which is neither 0 nor 1. *)
Lemma persisted_count_wraps_at_max :
  0 <= failureCount (starting webhook_at_max)
  /\ state_file (after (proxy_down 60) webhook_at_max)
     = Some {| mode := "webhook"; failureCount := - 9223372036854775808;
               lastCheck := 0; lastSwitch := 0 |}
  /\ ~ (- 9223372036854775808 = 0 \/ - 9223372036854775808 = 1).
Proof.
  split; [vm_compute; discriminate|]. split; [vm_compute; reflexivity|]. lia.
Qed.

(** Beyond that integer the text of the count no longer reads as itself:
    2^63 reads as a negative number, and a run that finds every service up
    in webhook mode leaves it in place. *)
Lemma count_beyond_shell_range_kept :
  state_file (after (all_ok 60)
                (with_state {| mode := "webhook"; failureCount := 2 ^ 63;
                               lastCheck := 0; lastSwitch := 0 |} None))
  = Some {| mode := "webhook"; failureCount := 2 ^ 63; lastCheck := 0; lastSwitch := 0 |}.
Proof. vm_compute. reflexivity. Qed.

(** C10, amended.  From any mode and any count [n] with
    [0 <= n <= 2^63 - 1], whatever the probes, the count a run persists is
    below the threshold 2, and is 0 when the run switched the mode; it is 0
    or 1 whenever [n] is below 2^63 - 1. *)
Theorem persisted_count_below_threshold (e : Env) (f : Files) :
  0 <= failureCount (starting f) <= INT64_MAX ->
  exists s' : State,
    state_file (after e f) = Some s'
    /\ failureCount s' < FAILURE_THRESHOLD
    /\ (switches (ops_of e f) <> 0%nat \/ mode s' <> mode (starting f) ->
        failureCount s' = 0)
    /\ (failureCount (starting f) < INT64_MAX ->
        failureCount s' = 0 \/ failureCount s' = 1).
Proof.
  intros Hc. destruct (run_next e f) as [S1 W1].
  exists (fst (next e (starting f))). split; [exact S1|].
  rewrite W1. clear S1 W1. set (s := starting f) in *. clearbody s.
  assert (Hw : failureCount s < INT64_MAX -> wrap64 (failureCount s + 1) = failureCount s + 1)
    by (intros; apply wrap64_small; unfold INT64_MAX in *; lia).
  unfold next, FAILURE_THRESHOLD. rewrite (sh_int_count (failureCount s) Hc).
  destruct (String.eqb (mode s) "webhook") eqn:Em;
    [ destruct (webhook_down e) | destruct (all_up e) ];
    try (destruct (wrap64 (failureCount s + 1) >=? 2) eqn:Eg;
         [ | rewrite Z.geb_leb in Eg; apply Z.leb_gt in Eg ]);
    try (destruct (failureCount s >? 0) eqn:Ep;
         [ | rewrite Z.gtb_ltb in Ep; apply Z.ltb_ge in Ep ]);
    cbn [fst snd jq_switch jq_failureCount failureCount mode];
    repeat split; try lia;
    try (intros [H|H]; [exfalso; apply H; reflexivity | try lia; exfalso; apply H; reflexivity]);
    try (intros H; rewrite (Hw H) in *; lia).
Qed.

Lemma persisted_count_below_threshold_witness :
  0 <= failureCount (starting polling_after_one_success) <= INT64_MAX
  /\ switches (ops_of (all_ok 180) polling_after_one_success) <> 0%nat
  /\ failureCount (starting polling_after_one_success) < INT64_MAX
  /\ exists s' : State,
       state_file (after (all_ok 180) polling_after_one_success) = Some s'
       /\ failureCount s' < FAILURE_THRESHOLD
       /\ failureCount s' = 0
       /\ (failureCount s' = 0 \/ failureCount s' = 1).
Proof.
  assert (Hc : 0 <= failureCount (starting polling_after_one_success) <= INT64_MAX)
    by (vm_compute; split; discriminate).
  assert (Hs : switches (ops_of (all_ok 180) polling_after_one_success) <> 0%nat)
    by (vm_compute; discriminate).
  assert (Hm : failureCount (starting polling_after_one_success) < INT64_MAX)
    by (vm_compute; reflexivity).
  split; [exact Hc|]. split; [exact Hs|]. split; [exact Hm|].
  destruct (persisted_count_below_threshold (all_ok 180) polling_after_one_success Hc)
    as (s' & H1 & H2 & H3 & H4).
  exists s'. split; [exact H1|]. split; [exact H2|]. split.
  - apply H3. left. exact Hs.
  - apply H4. exact Hm.
Defined.

(** C2, as stated, fails: the first run on a machine without a state file
    that finds the reverse proxy down updates the state file twice, each
    time by a redirection onto the file itself; no temporary file is
    written and nothing is renamed. *)
Lemma state_file_not_replaced_by_rename :
  ops_of (proxy_down 60) no_files
  = [ Overwrite STATE_FILE (StateJson INITIAL_STATE);
      Append LOG_FILE (Health false true true true "webhook" 0);
      Overwrite STATE_FILE (StateJson (jq_failureCount 1 INITIAL_STATE));
      Append LOG_FILE (WarningCriticalDown 1) ]
  /\ replaced_by_rename STATE_FILE (ops_of (proxy_down 60) no_files) = false.
Proof. split; reflexivity. Qed.

(** C2, amended.  Every update of the state file overwrites it in place
    (the redirection of [init_state] and [update_state]), and each change
    of the persisted state is such an overwrite with the new record; the
    one file a run replaces by writing a temporary file and renaming it
    into place is the gateway's configuration. *)
Theorem state_file_overwritten_in_place (e : Env) (f : Files) :
  overwritten_in_place STATE_FILE (ops_of e f) = true
  /\ replaced_by_rename STATE_FILE (ops_of e f) =
     negb (existsb (writes_to STATE_FILE) (ops_of e f))
  /\ (state_file (after e f) <> state_file f ->
      exists s, In (Overwrite STATE_FILE (StateJson s)) (ops_of e f)
                /\ state_file (after e f) = Some s)
  /\ replaced_by_rename OPENCLAW_CONFIG (ops_of e f) = true
  /\ (forall src dst, In (Rename src dst) (ops_of e f) ->
        src = OPENCLAW_CONFIG_TMP /\ dst = OPENCLAW_CONFIG).
Proof.
  destruct f as [[s|] [c|] ct]; unfold_run; cbn;
    repeat match goal with
      | |- context [if ?c then _ else _] => destruct c eqn:?; cbn
      end;
    (split; [reflexivity|]); (split; [reflexivity|]);
    (split; [ intros H;
              first [ exfalso; apply H; reflexivity
                    | eexists; split; [|reflexivity]; cbn; tauto ] |]);
    (split; [reflexivity|]);
    intros src dst Hin; cbn in Hin;
    repeat match goal with
      | H : _ \/ _ |- _ => destruct H as [H|H]
      | H : False |- _ => destruct H
      | H : Rename _ _ = Rename _ _ |- _ => injection H as <- <-
      | H : _ = Rename _ _ |- _ => discriminate H
      end; split; reflexivity.
Qed.

Lemma state_file_overwritten_in_place_witness :
  state_file (after (proxy_down 60) no_files) <> state_file no_files
  /\ overwritten_in_place STATE_FILE (ops_of (proxy_down 60) no_files) = true
  /\ (exists s, In (Overwrite STATE_FILE (StateJson s)) (ops_of (proxy_down 60) no_files)
                /\ state_file (after (proxy_down 60) no_files) = Some s)
  /\ In (Rename OPENCLAW_CONFIG_TMP OPENCLAW_CONFIG)
        (ops_of (all_ok 180) (with_state (polling_state 1) configured))
  /\ (forall src dst,
        In (Rename src dst) (ops_of (all_ok 180) (with_state (polling_state 1) configured)) ->
        src = OPENCLAW_CONFIG_TMP /\ dst = OPENCLAW_CONFIG).
Proof.
  assert (Hne : state_file (after (proxy_down 60) no_files) <> state_file no_files)
    by (cbn; discriminate).
  destruct (state_file_overwritten_in_place (proxy_down 60) no_files) as (H1 & _ & H3 & _ & _).
  destruct (state_file_overwritten_in_place (all_ok 180) (with_state (polling_state 1) configured))
    as (_ & _ & _ & _ & H5).
  split; [exact Hne|]. split; [exact H1|]. split; [exact (H3 Hne)|].
  split; [cbn; tauto | exact H5].
Defined.

End WatchdogProperties.

(* ===================================================================== *)
(** * Further properties of the handlers *)

Section HandlerCalls.

Import Handler.
Local Open Scope handler_scope.

#[local] Arguments Str.slice0 : simpl never.

Lemma take_length (n : nat) (s : string) : (String.length (Str.take n s) <= n)%nat.
Proof.
  revert s. induction n as [|n IH]; intros s; [cbn; lia|].
  destruct s as [|c r]; cbn; [lia|]. specialize (IH r). lia.
Qed.

Lemma slice0_length (n : nat) (s : string) : (String.length (Str.slice0 n s) <= n)%nat.
Proof. apply take_length. Qed.

Lemma slice200_or_length (d : string) (v : Js.value) :
  (String.length d <= 200)%nat -> (String.length (slice200_or d v) <= 200)%nat.
Proof. intros H. destruct v; cbn; try exact H. apply slice0_length. Qed.

Lemma or_truthy (a b : Js.value) : Js.truthy b = true -> Js.truthy (Js.or a b) = true.
Proof. intros H. unfold Js.or. destruct (Js.truthy a) eqn:E; [exact E | exact H]. Qed.

(** X1.  Whatever the event, [message_received] issues no call for a
    sender other than Boss, and returns normally there when the sender
    identifier can be converted to a string (a primitive, or an object
    without a [toString] of its own; otherwise [String(senderId)] throws,
    still before any call); it never issues more than two calls, and each
    goes to one of the plugin's two endpoints under its timeout. *)
Theorem onMessageReceived_only_for_boss (plugin : Plugin) (event : Js.value) :
  (is_boss (received_senderId event) = false ->
     calls (onMessageReceived plugin event) = [])
  /\ (is_boss (received_senderId event) = false ->
      converts (received_senderId event) = true ->
      onMessageReceived plugin event = ([], Some tt))
  /\ (calls (onMessageReceived plugin event) <> [] ->
      is_boss (received_senderId event) = true)
  /\ (List.length (calls (onMessageReceived plugin event)) <= 2)%nat
  /\ Forall (to_dashboard plugin) (calls (onMessageReceived plugin event)).
Proof.
  unfold onMessageReceived, to_dashboard.
  destruct (is_boss (received_senderId event)); cbn [andb when].
  - split; [discriminate|]. split; [discriminate|]. split; [reflexivity|].
    destruct (received_content event) as [| |b|n|s|ps]; cbn;
      try destruct b; try destruct (n =? 0); try destruct (String.eqb s EmptyString);
      cbn; (split; [lia|]);
      repeat (apply Forall_cons;
              [split; [first [left; reflexivity | right; reflexivity] | reflexivity]|]);
      apply Forall_nil.
  - cbn. split; [reflexivity|]. split; [reflexivity|].
    split; [intros H; exfalso; apply H; reflexivity|].
    split; [lia | constructor].
Qed.

Lemma onMessageReceived_only_for_boss_witness :
  is_boss (received_senderId (Js.Obj [("content", Js.Str "hi")])) = false
  /\ converts (received_senderId (Js.Obj [("content", Js.Str "hi")])) = true
  /\ onMessageReceived default_plugin (Js.Obj [("content", Js.Str "hi")]) = ([], Some tt)
  /\ calls (onMessageReceived default_plugin
              (Js.Obj [ ("content", Js.Str "hi");
                        ("metadata", Js.Obj [("senderId", unconvertible)]) ])) = []
  /\ is_boss (received_senderId (boss_event "hello")) = true.
Proof.
  split; [reflexivity|]. split; [reflexivity|]. split; [|split].
  - apply (proj1 (proj2 (onMessageReceived_only_for_boss default_plugin
                           (Js.Obj [("content", Js.Str "hi")]))));
      reflexivity.
  - apply (proj1 (onMessageReceived_only_for_boss default_plugin
                    (Js.Obj [ ("content", Js.Str "hi");
                              ("metadata", Js.Obj [("senderId", unconvertible)]) ]))).
    reflexivity.
  - apply (proj1 (proj2 (proj2 (onMessageReceived_only_for_boss default_plugin
                                  (boss_event "hello"))))).
    cbn. discriminate.
Defined.

(** X2.  A Boss message with no content, or a falsy one, whose message
    identifier can be converted to a number (a primitive, or an object
    without a [toString] of its own) starts a flow with empty content and
    puts nothing on the messages feed; a Boss message whose content is a
    non-zero number or [true] makes the hook throw ([content.slice] is no
    function) before any call. *)
Theorem onMessageReceived_boss_without_text (plugin : Plugin) (event : Js.value) :
  is_boss (received_senderId event) = true ->
  (Js.truthy (Js.get event "content") = false ->
   converts (Js.get (Js.get event "metadata") "messageId") = true ->
     onMessageReceived plugin event
     = ([ {| url := workflowEndpoint plugin;
             payload := start_flow (Js.Str EmptyString)
                          (Js.or (Js.get (Js.get event "metadata") "senderName")
                                 (Js.Str "Unknown"))
                          (Js.get (Js.get event "metadata") "messageId");
             timeout := timeoutMs plugin |} ], Some tt))
  /\ (Js.truthy (Js.get event "content") = true ->
      is_number_or_boolean (Js.get event "content") = true ->
      onMessageReceived plugin event = ([], None)).
Proof.
  intros Hb. unfold onMessageReceived, received_content, Js.or. rewrite Hb. split.
  - intros H _. rewrite H. cbn. reflexivity.
  - intros H Hs. rewrite H. cbn [andb when].
    destruct (Js.get event "content") as [| |b|n|s|ps]; try discriminate Hs;
      rewrite H; reflexivity.
Qed.

Lemma onMessageReceived_boss_without_text_witness :
  is_boss (received_senderId (boss_event_with_id (Js.Num 7))) = true
  /\ converts (Js.get (Js.get (boss_event_with_id (Js.Num 7)) "metadata") "messageId") = true
  /\ List.length (calls (onMessageReceived default_plugin
                           (boss_event_with_id (Js.Num 7)))) = 1%nat
  /\ is_number_or_boolean
       (Js.get (Js.Obj [("content", Js.Num 5); ("metadata", boss_metadata)]) "content") = true
  /\ onMessageReceived default_plugin
       (Js.Obj [("content", Js.Num 5); ("metadata", boss_metadata)]) = ([], None).
Proof.
  split; [reflexivity|]. split; [reflexivity|]. split; [|split; [reflexivity|]].
  - rewrite (proj1 (onMessageReceived_boss_without_text default_plugin
                      (boss_event_with_id (Js.Num 7)) eq_refl) eq_refl eq_refl).
    reflexivity.
  - apply (proj2 (onMessageReceived_boss_without_text default_plugin
                    (Js.Obj [("content", Js.Num 5); ("metadata", boss_metadata)]) eq_refl));
      reflexivity.
Defined.

(** X3.  A reply to Boss whose text [isHarmlessExecMessage] rejects is
    forwarded by exactly two calls, in this order: the whole text to the
    messages feed with [type = sent], then [agent_complete] to the workflow
    endpoint with the first 200 characters as [result]. *)
Theorem onMessageSent_to_boss_two_calls (plugin : Plugin) (event : Js.value) (text : string) :
  sent_content event = Js.Str text ->
  text <> EmptyString ->
  isHarmlessExecMessage text = false ->
  is_boss (sent_recipientId event) = true ->
  onMessageSent plugin event
  = ([ {| url := messagesEndpoint plugin;
          payload := feed (V (Js.Str text)) "WickedMan" "sent";
          timeout := timeoutMs plugin |};
       {| url := workflowEndpoint plugin;
          payload := [ ("action", V (Js.Str "agent_complete"));
                       ("agent", V (Js.Str "wickedman"));
                       ("result", V (Js.Str (Str.slice0 200 text))) ];
          timeout := timeoutMs plugin |} ], Some tt)
  /\ (String.length (Str.slice0 200 text) <= 200)%nat.
Proof.
  intros Hc Hne Hh Hb. split; [|apply slice0_length].
  unfold onMessageSent. rewrite Hc, Hb. cbn [Js.truthy].
  destruct (String.eqb_spec text EmptyString) as [E|_]; [contradiction|].
  cbn. rewrite Hh. reflexivity.
Qed.

Lemma onMessageSent_to_boss_two_calls_witness :
  sent_content (reply_to_boss "Done.") = Js.Str "Done."
  /\ isHarmlessExecMessage "Done." = false
  /\ is_boss (sent_recipientId (reply_to_boss "Done.")) = true
  /\ List.length (calls (onMessageSent default_plugin (reply_to_boss "Done."))) = 2%nat.
Proof.
  split; [reflexivity|]. split; [reflexivity|]. split; [reflexivity|].
  rewrite (proj1 (onMessageSent_to_boss_two_calls default_plugin (reply_to_boss "Done.") "Done."
                    eq_refl ltac:(discriminate) eq_refl eq_refl)).
  reflexivity.
Defined.

(** The outcomes of [message_sent], by the content it reads. *)
Lemma onMessageSent_cases (plugin : Plugin) (event : Js.value) :
  onMessageSent plugin event
  = match sent_content event with
    | Js.Str s =>
        if String.eqb s EmptyString then ([], Some tt)
        else if isHarmlessExecMessage s then ([], Some tt)
        else if is_boss (sent_recipientId event) then
          ([ {| url := messagesEndpoint plugin;
                payload := feed (V (Js.Str s)) "WickedMan" "sent";
                timeout := timeoutMs plugin |};
             {| url := workflowEndpoint plugin;
                payload := [ ("action", V (Js.Str "agent_complete"));
                             ("agent", V (Js.Str "wickedman"));
                             ("result", V (Js.Str (Str.slice0 200 s))) ];
                timeout := timeoutMs plugin |} ], Some tt)
        else ([], Some tt)
    | v => if Js.truthy v then ([], None) else ([], Some tt)
    end.
Proof.
  unfold onMessageSent.
  destruct (sent_content event) as [| |b|n|s|ps]; cbn [Js.truthy negb]; try reflexivity.
  - destruct b; reflexivity.
  - destruct (n =? 0); reflexivity.
  - destruct (String.eqb s EmptyString); cbn [negb]; [reflexivity|].
    cbn [as_string bind ret app]. destruct (isHarmlessExecMessage s); [reflexivity|].
    destruct (is_boss (sent_recipientId event)); reflexivity.
Qed.

(** X4.  Whatever the event, [message_sent] issues no call for a recipient
    other than Boss; when it issues calls they are two, to the plugin's
    endpoints, and the text was a string that [isHarmlessExecMessage]
    rejects; and a content that is truthy and no string makes it throw
    before any call. *)
Theorem onMessageSent_only_to_boss (plugin : Plugin) (event : Js.value) :
  (is_boss (sent_recipientId event) = false ->
     calls (onMessageSent plugin event) = [])
  /\ (calls (onMessageSent plugin event) <> [] ->
      exists text, sent_content event = Js.Str text
                   /\ isHarmlessExecMessage text = false
                   /\ is_boss (sent_recipientId event) = true
                   /\ List.length (calls (onMessageSent plugin event)) = 2%nat)
  /\ Forall (to_dashboard plugin) (calls (onMessageSent plugin event))
  /\ (Js.truthy (sent_content event) = true ->
      (forall s, sent_content event <> Js.Str s) ->
      onMessageSent plugin event = ([], None)).
Proof.
  rewrite onMessageSent_cases. unfold to_dashboard.
  destruct (sent_content event) as [| |b|n|s|ps] eqn:Ec.
  1-4, 6: (split; [intros _; destruct (Js.truthy _); reflexivity|];
           split; [intros H; exfalso; apply H; destruct (Js.truthy _); reflexivity|];
           split; [destruct (Js.truthy _); constructor|];
           intros -> _; reflexivity).
  assert (Hs : forall A : Prop, (forall s0, Js.Str s <> Js.Str s0) -> A)
    by (intros A H; exfalso; exact (H s eq_refl)).
  destruct (String.eqb s EmptyString);
    [| destruct (isHarmlessExecMessage s) eqn:Eh;
       [| destruct (is_boss (sent_recipientId event)) eqn:Eb ] ];
    cbn [calls fst].
  1, 2, 4: (split; [reflexivity|]; split; [intros H; exfalso; apply H; reflexivity|];
            split; [constructor|]; intros _; apply Hs).
  split; [discriminate|]. split.
  { intros _. exists s. repeat split; try assumption; reflexivity. }
  split; [|intros _; apply Hs].
  repeat (apply Forall_cons;
          [split; [first [left; reflexivity | right; reflexivity] | reflexivity]|]).
  apply Forall_nil.
Qed.

Lemma onMessageSent_only_to_boss_witness :
  calls (onMessageSent default_plugin
           (Js.Obj [("content", Js.Str "Done."); ("metadata", Js.Obj [])])) = []
  /\ (exists text, sent_content (reply_to_boss "Done.") = Js.Str text
                   /\ isHarmlessExecMessage text = false)
  /\ onMessageSent default_plugin (Js.Obj [("content", Js.Num 7)]) = ([], None).
Proof.
  split.
  { apply (proj1 (onMessageSent_only_to_boss default_plugin
                    (Js.Obj [("content", Js.Str "Done."); ("metadata", Js.Obj [])]))).
    reflexivity. }
  split.
  { destruct (proj1 (proj2 (onMessageSent_only_to_boss default_plugin (reply_to_boss "Done.")))
                ltac:(cbn; discriminate)) as (text & H1 & H2 & _).
    exists text. split; assumption. }
  apply (proj2 (proj2 (proj2 (onMessageSent_only_to_boss default_plugin
                                (Js.Obj [("content", Js.Num 7)]))))).
  - reflexivity.
  - intros s. cbn. discriminate.
Defined.

(** The outcomes of [message_received], by the content it reads. *)
Lemma onMessageReceived_cases (plugin : Plugin) (event : Js.value) :
  onMessageReceived plugin event
  = if is_boss (received_senderId event) then
      let flow :=
        {| url := workflowEndpoint plugin;
           payload := start_flow (received_content event)
                        (Js.or (Js.get (Js.get event "metadata") "senderName")
                               (Js.Str "Unknown"))
                        (Js.get (Js.get event "metadata") "messageId");
           timeout := timeoutMs plugin |} in
      match received_content event with
      | Js.Str s =>
          if String.eqb s EmptyString then ([flow], Some tt)
          else ([ {| url := messagesEndpoint plugin;
                     payload := feed (V (Js.Str s)) "Boss" "received";
                     timeout := timeoutMs plugin |}; flow ], Some tt)
      | _ => ([], None)
      end
    else ([], Some tt).
Proof.
  unfold onMessageReceived.
  destruct (is_boss (received_senderId event)); cbn [andb when]; [|reflexivity].
  destruct (received_content event) as [| |b|n|s|ps]; cbn [Js.truthy]; try reflexivity.
  - destruct b; reflexivity.
  - destruct (n =? 0); reflexivity.
  - destruct (String.eqb s EmptyString); reflexivity.
Qed.

(** The outcomes of [after_tool_call]. *)
Lemma onAfterToolCall_cases (plugin : Plugin) (event : Js.value) :
  onAfterToolCall plugin event
  = if negb (Js.is_str (exec_toolName event) "exec") then ([], Some tt)
    else if ((exec_exitCode event =? 0)
             && negb (Js.is_str (exec_status event) "error"))%bool then ([], Some tt)
    else match exec_command event with
         | Js.Str cmd =>
             if isHarmlessExecFailure cmd (exec_exitCode event) (exec_stderr event)
             then ([], Some tt)
             else ([ {| url := messagesEndpoint plugin;
                        payload := feed (ExecFailureText (exec_exitCode event)
                                                         (Str.slice0 150 cmd))
                                        "System" "exec_error";
                        timeout := timeoutMs plugin |} ], Some tt)
         | _ => ([], None)
         end.
Proof.
  unfold onAfterToolCall.
  destruct (negb (Js.is_str (exec_toolName event) "exec")); [reflexivity|].
  destruct ((exec_exitCode event =? 0) && negb (Js.is_str (exec_status event) "error"))%bool;
    [reflexivity|].
  fold (exec_command event). fold (exec_stderr event).
  destruct (exec_command event); try reflexivity.
  cbn [as_string bind ret app].
  destruct (isHarmlessExecFailure _ _ _); reflexivity.
Qed.

(** X5.  No handler of this revision sends the workflow endpoint more than
    200 characters of text: whatever the event or the body, in every call
    of [message_received], [message_sent] and the manual route the
    [content] and the [result] field, where present, are strings of at most
    200 characters (each is guarded by [typeof content === 'string']).  The
    earlier revision slices the content without that guard; its manual
    route keeps the bound when the content is a string. *)
Theorem workflow_text_within_200 (plugin : Plugin) (delivered : call -> bool)
    (event : Js.value) :
  let bounded := fun c => text_within 200 "content" c /\ text_within 200 "result" c in
  Forall bounded (calls (onMessageReceived plugin event))
  /\ Forall bounded (calls (onMessageSent plugin event))
  /\ Forall bounded (calls (onManualNotify plugin delivered event))
  /\ (forall s, Js.get event "content" = Js.Str s ->
      Forall bounded (calls (Legacy.onManualNotify plugin delivered event))).
Proof.
  intros bounded.
  assert (B200 : forall v, (String.length (slice200_or EmptyString v) <= 200)%nat)
    by (intros v; apply slice200_or_length; cbn; lia).
  assert (Flow : forall c f m u t,
             bounded {| url := u; payload := start_flow c f m; timeout := t |})
    by (intros; split; cbn; [apply B200 | exact I]).
  repeat split.
  - rewrite onMessageReceived_cases.
    destruct (is_boss _); [|constructor]. cbv zeta.
    destruct (received_content event) as [| |b|n|s|ps];
      try destruct (String.eqb _ _); cbn [calls fst];
      repeat (apply Forall_cons; [first [apply Flow | split; exact I]|]); apply Forall_nil.
  - rewrite onMessageSent_cases.
    destruct (sent_content event) as [| |b|n|s|ps];
      try destruct (Js.truthy _); try destruct (String.eqb _ _);
      try destruct (isHarmlessExecMessage _); try destruct (is_boss _);
      cbn [calls fst]; try apply Forall_nil.
    apply Forall_cons; [split; exact I|].
    apply Forall_cons; [split; cbn; [exact I | apply slice0_length]|]. apply Forall_nil.
  - unfold onManualNotify. destruct (Js.is_nullish event); [constructor|].
    destruct (negb (Js.truthy (Js.get event "content"))); [constructor|].
    cbn. apply Forall_cons; [apply Flow | apply Forall_nil].
  - intros s Hs. unfold Legacy.onManualNotify, Legacy.notifyKccOffice.
    destruct (Js.is_nullish event); [constructor|].
    rewrite Hs.
    destruct (negb (Js.truthy (Js.Str s))); [constructor|]. cbn.
    apply Forall_cons; [split; cbn; [apply slice0_length | exact I] | apply Forall_nil].
Qed.

Lemma workflow_text_within_200_witness :
  Js.get (Js.Obj [("content", Js.Str long_content)]) "content" = Js.Str long_content
  /\ List.length (calls (Legacy.onManualNotify default_plugin (fun _ => true)
                           (Js.Obj [("content", Js.Str long_content)]))) = 1%nat
  /\ Forall (fun c => text_within 200 "content" c /\ text_within 200 "result" c)
            (calls (Legacy.onManualNotify default_plugin (fun _ => true)
                      (Js.Obj [("content", Js.Str long_content)]))).
Proof.
  split; [reflexivity|]. split; [reflexivity|].
  exact (proj2 (proj2 (proj2 (workflow_text_within_200 default_plugin (fun _ => true)
                                (Js.Obj [("content", Js.Str long_content)]))))
           long_content eq_refl).
Defined.

(** X6.  Whatever the event, [after_tool_call] issues at most one call,
    and only for a failed [exec] (a non-zero exit code or the status
    [error]); the call goes to the messages feed, under the plugin's
    timeout, as an [exec_error] from [System].  When the command is a
    string and the error text can be converted to one (a primitive, or an
    object without a [toString] of its own), the call is issued exactly
    when [isHarmlessExecFailure] rejects the failure, and its message
    quotes the exit code and the first 150 characters of the command. *)
Theorem onAfterToolCall_reports_once (plugin : Plugin) (event : Js.value) :
  (List.length (calls (onAfterToolCall plugin event)) <= 1)%nat
  /\ (forall c, In c (calls (onAfterToolCall plugin event)) ->
        url c = messagesEndpoint plugin
        /\ timeout c = timeoutMs plugin
        /\ field_of "type" (payload c) = Some (V (Js.Str "exec_error"))
        /\ field_of "from" (payload c) = Some (V (Js.Str "System"))
        /\ exec_toolName event = Js.Str "exec"
        /\ (exec_exitCode event <> 0 \/ exec_status event = Js.Str "error"))
  /\ (forall cmd, exec_command event = Js.Str cmd ->
        converts (exec_stderr event) = true ->
        (calls (onAfterToolCall plugin event) <> [] <->
           exec_toolName event = Js.Str "exec"
           /\ (exec_exitCode event <> 0 \/ exec_status event = Js.Str "error")
           /\ isHarmlessExecFailure cmd (exec_exitCode event) (exec_stderr event) = false)
        /\ (forall c, In c (calls (onAfterToolCall plugin event)) ->
              field_of "message" (payload c)
              = Some (ExecFailureText (exec_exitCode event) (Str.slice0 150 cmd))
              /\ (String.length (Str.slice0 150 cmd) <= 150)%nat)).
Proof.
  rewrite onAfterToolCall_cases.
  destruct (Js.is_str (exec_toolName event) "exec") eqn:Et; cbn [negb].
  2: { apply is_str_false in Et. cbn [calls fst List.length].
       split; [lia|]. split; [intros c []|]. intros cmd _ _. split; [|intros c []].
       split; [intros H; exfalso; apply H; reflexivity | intros (H & _); contradiction]. }
  apply is_str_true in Et.
  destruct (exec_exitCode event =? 0) eqn:E0; cbn [andb];
    [destruct (Js.is_str (exec_status event) "error") eqn:Es; cbn [negb] |].
  2: { apply Z.eqb_eq in E0. apply is_str_false in Es. cbn [calls fst List.length].
       split; [lia|]. split; [intros c []|]. intros cmd _ _. split; [|intros c []].
       split; [intros H; exfalso; apply H; reflexivity|].
       intros (_ & [H|H] & _); contradiction. }
  all: assert (Hfail : exec_exitCode event <> 0 \/ exec_status event = Js.Str "error")
         by (first [ right; apply is_str_true; exact Es
                   | left; apply Z.eqb_neq; exact E0 ]).
  all: destruct (exec_command event) as [| | | |cmd|] eqn:Ec;
    try (cbn [calls fst List.length]; split; [lia|]; split; [intros c []|];
         intros cmd0 Hc; discriminate Hc).
  all: destruct (isHarmlessExecFailure cmd (exec_exitCode event) (exec_stderr event)) eqn:Eh;
    cbn [calls fst List.length]; (split; [lia|]).
  all: try (split; [intros c []|]; intros cmd0 Hc _; injection Hc as <-;
            split; [|intros c []];
            split; [intros H; exfalso; apply H; reflexivity
                   | intros (_ & _ & Hh); congruence]).
  all: split;
    [ intros c [<-|[]]; repeat (split; [reflexivity|]); split; [exact Et | exact Hfail]
    | intros cmd0 Hc _; injection Hc as <-; split;
      [ split; [intros _; split; [exact Et|]; split; [exact Hfail | exact Eh] | discriminate]
      | intros c [<-|[]]; split; [reflexivity | apply slice0_length] ] ].
Qed.

Lemma onAfterToolCall_reports_once_witness :
  exec_command failed_make = Js.Str "make all"
  /\ converts (exec_stderr failed_make) = true
  /\ calls (onAfterToolCall default_plugin failed_make) <> []
  /\ (forall c, In c (calls (onAfterToolCall default_plugin failed_make)) ->
        url c = messagesEndpoint default_plugin
        /\ field_of "message" (payload c) = Some (ExecFailureText 1 "make all"))
  /\ calls (onAfterToolCall default_plugin (exec_with "grep -c x log" [("exitCode", Js.Num 1)]))
     = [].
Proof.
  destruct (onAfterToolCall_reports_once default_plugin failed_make) as (_ & H2 & H3).
  destruct (H3 "make all" eq_refl eq_refl) as (H4 & H5).
  split; [reflexivity|]. split; [reflexivity|]. split; [|split].
  - apply H4. split; [reflexivity|]. split; [left; cbn; discriminate | reflexivity].
  - intros c Hc. split; [exact (proj1 (H2 c Hc)) | exact (proj1 (H5 c Hc))].
  - destruct (onAfterToolCall_reports_once default_plugin
                (exec_with "grep -c x log" [("exitCode", Js.Num 1)])) as (_ & _ & G3).
    destruct (G3 "grep -c x log" eq_refl eq_refl) as (G4 & _).
    destruct (calls (onAfterToolCall default_plugin
                       (exec_with "grep -c x log" [("exitCode", Js.Num 1)]))) as [|c r] eqn:E;
      [reflexivity|].
    destruct (proj1 G4 ltac:(discriminate)) as (_ & _ & Hh). discriminate Hh.
Defined.

(** X7.  An [exec] failure whose command contains [2>/dev/null] never
    reaches the dashboard, whatever its exit code, its status and its
    error text. *)
Theorem onAfterToolCall_silenced_command (plugin : Plugin) (event : Js.value) (cmd : string) :
  exec_command event = Js.Str cmd ->
  Str.includes "2>/dev/null" cmd = true ->
  onAfterToolCall plugin event = ([], Some tt).
Proof.
  intros Hc Hm. rewrite onAfterToolCall_cases, Hc.
  assert (Hh : forall code err, isHarmlessExecFailure cmd code err = true).
  { intros code err. unfold isHarmlessExecFailure, REDIRECT_MARKER. rewrite Hm. reflexivity. }
  rewrite Hh.
  destruct (negb _); [reflexivity|]. destruct (_ && _)%bool; reflexivity.
Qed.

Lemma onAfterToolCall_silenced_command_witness :
  exec_command (exec_with "rm -rf build 2>/dev/null" [("exitCode", Js.Num 127)])
  = Js.Str "rm -rf build 2>/dev/null"
  /\ onAfterToolCall default_plugin
       (exec_with "rm -rf build 2>/dev/null" [("exitCode", Js.Num 127)]) = ([], Some tt).
Proof.
  split; [reflexivity|].
  apply (onAfterToolCall_silenced_command default_plugin _ "rm -rf build 2>/dev/null");
    reflexivity.
Defined.

(** X8.  On a body that is not null and whose message identifier can be
    converted to a number (a primitive, or an object without a [toString]
    of its own), the two revisions of the manual route answer 400 on the
    same bodies and send the same text for a string content; they part on
    a content that is a non-zero number or [true]: the earlier revision
    sends nothing ([content.slice] throws inside its [try]) and answers
    502, this one sends a [start_flow] with an empty content and answers by
    the delivery. *)
Theorem onManualNotify_revisions (plugin : Plugin) (delivered : call -> bool)
    (parsed : Js.value) :
  Js.is_nullish parsed = false ->
  converts (Js.get parsed "messageId") = true ->
  (Js.truthy (Js.get parsed "content") = false ->
     Legacy.onManualNotify plugin delivered parsed = onManualNotify plugin delivered parsed)
  /\ (forall s, Js.get parsed "content" = Js.Str s -> s <> EmptyString ->
        exists c c',
          calls (Legacy.onManualNotify plugin delivered parsed) = [c]
          /\ calls (onManualNotify plugin delivered parsed) = [c']
          /\ url c = url c'
          /\ field_of "content" (payload c) = Some (V (Js.Str (Str.slice0 200 s)))
          /\ field_of "content" (payload c') = Some (V (Js.Str (Str.slice0 200 s)))
          /\ field_of "from" (payload c) = field_of "from" (payload c')
          /\ field_of "action" (payload c) = Some (V (Js.Str "new_request"))
          /\ field_of "action" (payload c') = Some (V (Js.Str "start_flow")))
  /\ (Js.truthy (Js.get parsed "content") = true ->
      is_number_or_boolean (Js.get parsed "content") = true ->
      Legacy.onManualNotify plugin delivered parsed
      = ([], Some {| status := 502; json := [("success", Js.Bool false)] |})
      /\ exists c',
           onManualNotify plugin delivered parsed
           = ([c'], Some {| status := if delivered c' then 200 else 502;
                            json := [("success", Js.Bool (delivered c'))] |})
           /\ field_of "content" (payload c') = Some (V (Js.Str EmptyString))).
Proof.
  intros Hn _. unfold Legacy.onManualNotify, onManualNotify, Legacy.notifyKccOffice.
  rewrite Hn. split; [|split].
  - intros H. rewrite H. reflexivity.
  - intros s Hs Hne. rewrite Hs. cbn [Js.truthy].
    destruct (String.eqb_spec s EmptyString) as [E|_]; [contradiction|].
    cbn. do 2 eexists. repeat (split; [reflexivity|]). reflexivity.
  - intros H Hs. rewrite H. cbn [negb].
    destruct (Js.get parsed "content") as [| |b|n|s|ps];
      try discriminate Hs; cbn;
      (split; [reflexivity|]); eexists; (split; reflexivity).
Qed.

Lemma onManualNotify_revisions_witness :
  Js.is_nullish (Js.Obj [("content", Js.Num 42)]) = false
  /\ converts (Js.get (Js.Obj [("content", Js.Num 42)]) "messageId") = true
  /\ is_number_or_boolean (Js.get (Js.Obj [("content", Js.Num 42)]) "content") = true
  /\ Legacy.onManualNotify default_plugin (fun _ => true) (Js.Obj [("content", Js.Num 42)])
     = ([], Some {| status := 502; json := [("success", Js.Bool false)] |})
  /\ Legacy.onManualNotify default_plugin (fun _ => true) (Js.Obj [])
     = onManualNotify default_plugin (fun _ => true) (Js.Obj [])
  /\ exists c c',
       calls (Legacy.onManualNotify default_plugin (fun _ => true) content_x_body) = [c]
       /\ calls (onManualNotify default_plugin (fun _ => true) content_x_body) = [c']
       /\ url c = url c'.
Proof.
  split; [reflexivity|]. split; [reflexivity|]. split; [reflexivity|].
  destruct (onManualNotify_revisions default_plugin (fun _ => true)
              (Js.Obj [("content", Js.Num 42)]) eq_refl eq_refl) as (_ & _ & A3).
  destruct (onManualNotify_revisions default_plugin (fun _ => true) (Js.Obj []) eq_refl eq_refl)
    as (B1 & _).
  destruct (onManualNotify_revisions default_plugin (fun _ => true) content_x_body
              eq_refl eq_refl)
    as (_ & C2 & _).
  split; [apply A3; reflexivity|].
  split; [apply B1; reflexivity|].
  destruct (C2 "x" eq_refl ltac:(discriminate)) as (c & c' & H1 & H2 & H3 & _).
  exists c, c'. repeat split; assumption.
Defined.

(** X9.  The plugin registers nothing exactly when [enabled] is the
    boolean [false] in its configuration; registered, it has a truthy
    workflow endpoint, messages endpoint and timeout, each the configured
    value when that is truthy and the default otherwise. *)
Theorem kccNotifyPlugin_config (api_config : Js.value) :
  let config := Js.or api_config (Js.Obj []) in
  (kccNotifyPlugin api_config = None <-> Js.get config "enabled" = Js.Bool false)
  /\ (forall p, kccNotifyPlugin api_config = Some p ->
        Js.truthy (workflowEndpoint p) = true
        /\ Js.truthy (messagesEndpoint p) = true
        /\ Js.truthy (timeoutMs p) = true
        /\ (Js.truthy (Js.get config "endpoint") = true ->
            workflowEndpoint p = Js.get config "endpoint")
        /\ (Js.truthy (Js.get config "endpoint") = false ->
            workflowEndpoint p = Js.Str DEFAULT_WORKFLOW_ENDPOINT)
        /\ (Js.truthy (Js.get config "messagesEndpoint") = true ->
            messagesEndpoint p = Js.get config "messagesEndpoint")
        /\ (Js.truthy (Js.get config "messagesEndpoint") = false ->
            messagesEndpoint p = Js.Str DEFAULT_MESSAGES_ENDPOINT)
        /\ (Js.truthy (Js.get config "timeoutMs") = true ->
            timeoutMs p = Js.get config "timeoutMs")
        /\ (Js.truthy (Js.get config "timeoutMs") = false ->
            timeoutMs p = Js.Num DEFAULT_TIMEOUT_MS)).
Proof.
  intros config. unfold kccNotifyPlugin. fold config.
  destruct (Js.get config "enabled") as [| |[|]| | |] eqn:Ee; cbn [negb];
    (split; [split; [intros H; first [discriminate H | reflexivity]
                    | intros H; first [discriminate H | reflexivity]]|]);
    intros p Hp; try discriminate Hp; injection Hp as <-; cbn;
    (split; [apply or_truthy; reflexivity|]);
    (split; [apply or_truthy; reflexivity|]);
    (split; [apply or_truthy; reflexivity|]);
    unfold Js.or; repeat split; intros ->; reflexivity.
Qed.

Lemma kccNotifyPlugin_config_witness :
  kccNotifyPlugin (Js.Obj [("enabled", Js.Bool false)]) = None
  /\ (exists p, kccNotifyPlugin (Js.Obj [("enabled", Js.Num 0);
                                          ("endpoint", Js.Str EmptyString);
                                          ("messagesEndpoint", Js.Str "http://feed/");
                                          ("timeoutMs", Js.Num 500)]) = Some p
                /\ workflowEndpoint p = Js.Str DEFAULT_WORKFLOW_ENDPOINT
                /\ messagesEndpoint p = Js.Str "http://feed/"
                /\ timeoutMs p = Js.Num 500).
Proof.
  split.
  - apply (proj1 (kccNotifyPlugin_config (Js.Obj [("enabled", Js.Bool false)]))). reflexivity.
  - eexists. split; [reflexivity|].
    destruct (proj2 (kccNotifyPlugin_config
                       (Js.Obj [("enabled", Js.Num 0);
                                ("endpoint", Js.Str EmptyString);
                                ("messagesEndpoint", Js.Str "http://feed/");
                                ("timeoutMs", Js.Num 500)]))
                _ eq_refl) as (_ & _ & _ & _ & E0 & M1 & _ & T1 & _).
    split; [exact (E0 eq_refl)|]. split; [exact (M1 eq_refl) | exact (T1 eq_refl)].
Defined.

End HandlerCalls.

(* ===================================================================== *)
(** * Facts about strings and patterns *)

Section StringFacts.

Lemma append_assoc (a b c : string) : a ++ (b ++ c) = (a ++ b) ++ c.
Proof. induction a as [|x a IH]; cbn; [reflexivity | f_equal; exact IH]. Qed.

Lemma strip_split (l s r : string) : Str.strip false l s = Some r -> s = l ++ r.
Proof.
  revert s. induction l as [|a l IH]; intros s H; cbn in H.
  - injection H as ->. reflexivity.
  - destruct s as [|b s]; [discriminate|]. cbn in H.
    destruct (Ascii.eqb_spec a b) as [->|]; [|discriminate].
    cbn. f_equal. apply IH. exact H.
Qed.

Lemma strip_prefix (l r : string) : Str.strip false l (l ++ r) = Some r.
Proof.
  induction l as [|a l IH]; cbn; [reflexivity|]. rewrite Ascii.eqb_refl. exact IH.
Qed.

Lemma includes_cons (n : string) (c : ascii) (s : string) :
  Str.includes n (String c s)
  = match Str.strip false n (String c s) with
    | Some _ => true
    | None => Str.includes n s
    end.
Proof. reflexivity. Qed.

Lemma includes_here (n s r : string) : Str.strip false n s = Some r -> Str.includes n s = true.
Proof. intros H. destruct s; cbn [Str.includes]; rewrite H; reflexivity. Qed.

Lemma includes_after (n a s : string) : Str.includes n s = true -> Str.includes n (a ++ s) = true.
Proof.
  intros H. induction a as [|c a IH]; [exact H|].
  cbn [append]. rewrite includes_cons, IH. destruct (Str.strip false n _); reflexivity.
Qed.

Lemma strip_before (n s r b : string) :
  Str.strip false n s = Some r -> Str.strip false n (s ++ b) = Some (r ++ b).
Proof.
  intros H. apply strip_split in H. subst s. rewrite <- append_assoc.
  apply strip_prefix.
Qed.

Lemma includes_before (n s b : string) : Str.includes n s = true -> Str.includes n (s ++ b) = true.
Proof.
  induction s as [|c s IH]; intros H.
  - destruct (Str.strip false n EmptyString) eqn:E.
    + exact (includes_here _ _ _ (strip_before _ _ _ b E)).
    + cbn [Str.includes] in H. rewrite E in H. discriminate H.
  - rewrite includes_cons in H. destruct (Str.strip false n (String c s)) eqn:E.
    + exact (includes_here _ _ _ (strip_before _ _ _ b E)).
    + cbn [append]. rewrite includes_cons, (IH H).
      destruct (Str.strip false n (String c (s ++ b))); reflexivity.
Qed.

Lemma includes_middle (n a s b : string) :
  Str.includes n s = true -> Str.includes n (a ++ s ++ b) = true.
Proof. intros H. apply includes_after, includes_before, H. Qed.

(** [rev] and [++]. *)
Lemma rev_onto_spec (s acc : string) : Str.rev_onto s acc = Str.rev s ++ acc.
Proof.
  unfold Str.rev. revert acc. induction s as [|c s IH]; intros acc; cbn; [reflexivity|].
  rewrite (IH (String c acc)), (IH (String c EmptyString)), <- append_assoc. reflexivity.
Qed.

Lemma rev_cons (c : ascii) (s : string) : Str.rev (String c s) = Str.rev s ++ String c EmptyString.
Proof. unfold Str.rev at 1. cbn. apply rev_onto_spec. Qed.

Lemma append_nil_r (s : string) : s ++ EmptyString = s.
Proof. induction s; cbn; [reflexivity | f_equal; assumption]. Qed.

Lemma rev_snoc (s : string) (c : ascii) : Str.rev (s ++ String c EmptyString) = String c (Str.rev s).
Proof.
  induction s as [|a s IH]; [reflexivity|].
  cbn [append]. rewrite !rev_cons, IH. reflexivity.
Qed.

Lemma rev_app (a b : string) : Str.rev (a ++ b) = Str.rev b ++ Str.rev a.
Proof.
  induction a as [|c a IH]; cbn [append].
  - rewrite append_nil_r. reflexivity.
  - rewrite !rev_cons, IH, append_assoc. reflexivity.
Qed.

Lemma rev_rev (s : string) : Str.rev (Str.rev s) = s.
Proof.
  induction s as [|c s IH]; [reflexivity|]. rewrite rev_cons, rev_snoc, IH. reflexivity.
Qed.

(** What [trim] removes lies on the two sides. *)
Lemma trimStart_suffix (s : string) : exists a, s = a ++ Str.trimStart s.
Proof.
  induction s as [|c s [a IH]]; [exists EmptyString; reflexivity|].
  cbn. destruct (Str.is_space c).
  - exists (String c a). cbn. f_equal. exact IH.
  - exists EmptyString. reflexivity.
Qed.

Lemma trimEnd_prefix (s : string) : exists b, s = Str.trimEnd s ++ b.
Proof.
  unfold Str.trimEnd. destruct (trimStart_suffix (Str.rev s)) as [a H].
  exists (Str.rev a). rewrite <- rev_app, <- H, rev_rev. reflexivity.
Qed.

Lemma trim_inside (s : string) : exists a b, s = a ++ Str.trim s ++ b.
Proof.
  unfold Str.trim. destruct (trimStart_suffix s) as [a Ha].
  destruct (trimEnd_prefix (Str.trimStart s)) as [b Hb].
  exists a, b. rewrite <- Hb. exact Ha.
Qed.

Lemma includes_trim (n s : string) : Str.includes n (Str.trim s) = true -> Str.includes n s = true.
Proof.
  intros H. destruct (trim_inside s) as (a & b & E). rewrite E.
  apply includes_middle, H.
Qed.

(** A run of a pattern ends on a suffix of where it started. *)
Lemma suffix_refl (s : string) : suffix_of s s.
Proof. exists EmptyString. reflexivity. Qed.

Lemma suffix_trans (s t u : string) : suffix_of s t -> suffix_of t u -> suffix_of s u.
Proof. intros [a ->] [b ->]. exists (a ++ b). apply append_assoc. Qed.

Lemma suffix_tail (s : string) (c : ascii) (t : string) : suffix_of s (String c t) -> suffix_of s t.
Proof.
  intros [a ->]. exists (a ++ String c EmptyString). rewrite <- append_assoc. reflexivity.
Qed.

Lemma strip_suffix (ci : bool) (l s r : string) : Str.strip ci l s = Some r -> suffix_of s r.
Proof.
  revert s. induction l as [|a l IH]; intros s H; cbn in H.
  - injection H as ->. apply suffix_refl.
  - destruct s as [|b s]; [discriminate|].
    destruct (Str.char_eqb ci a b); [|discriminate].
    apply IH in H. destruct H as [x ->]. exists (String b x). reflexivity.
Qed.

Lemma star_from_suffix (k : Re.charclass) (off : nat) (s : string) (q : Re.pos) :
  In q (Re.star_from k off s) -> suffix_of s (snd q).
Proof.
  revert off. induction s as [|c s IH]; intros off H; cbn in H.
  - destruct H as [<-|[]]. apply suffix_refl.
  - destruct (Re.mem k c).
    + apply in_app_or in H. destruct H as [H|[<-|[]]]; [|apply suffix_refl].
      apply IH in H. destruct H as [x ->]. exists (String c x). reflexivity.
    + destruct H as [<-|[]]. apply suffix_refl.
Qed.

Lemma run_suffix (ci : bool) (r : Re.regex) (p q : Re.pos) :
  In q (Re.run ci r p) -> suffix_of (snd p) (snd q).
Proof.
  revert p q.
  induction r as [l|k|k|k|r1 IH1 r2 IH2|r1 IH1 r2 IH2| |]; intros [off s] q H;
    cbn [Re.run fst snd] in H; cbn [snd].
  - destruct (Str.strip ci l s) eqn:E; [|destruct H].
    destruct H as [<-|[]]. cbn. exact (strip_suffix _ _ _ _ E).
  - destruct s as [|c s]; [destruct H|].
    destruct (Re.mem k c); [|destruct H]. destruct H as [<-|[]].
    exists (String c EmptyString). reflexivity.
  - exact (star_from_suffix _ _ _ _ H).
  - destruct s as [|c s]; [destruct H|].
    destruct (Re.mem k c); [|destruct H].
    apply star_from_suffix in H. destruct H as [x ->]. exists (String c x). reflexivity.
  - apply in_flat_map in H. destruct H as (m & Hm & Hq).
    exact (suffix_trans _ _ _ (IH1 _ _ Hm) (IH2 _ _ Hq)).
  - apply in_app_or in H. destruct H as [H|H]; [exact (IH1 _ _ H) | exact (IH2 _ _ H)].
  - destruct off; [|destruct H]. destruct H as [<-|[]]. apply suffix_refl.
  - destruct s; [|destruct H]. destruct H as [<-|[]]. apply suffix_refl.
Qed.

Lemma starts_suffix (off : nat) (s : string) (p : Re.pos) :
  In p (Re.starts off s) -> suffix_of s (snd p).
Proof.
  revert off. induction s as [|c s IH]; intros off H; cbn in H.
  - destruct H as [<-|[]]. apply suffix_refl.
  - destruct H as [<-|H]; [apply suffix_refl|].
    apply IH in H. destruct H as [x ->]. exists (String c x). reflexivity.
Qed.

Lemma nonempty_in {A} (l : list A) : Re.nonempty l = true -> exists x, In x l.
Proof. destruct l as [|x l]; [discriminate|]. intros _. exists x. left. reflexivity. Qed.

Lemma in_nonempty {A} (l : list A) (x : A) : In x l -> Re.nonempty l = true.
Proof. destruct l; [intros []|reflexivity]. Qed.

(** A pattern that matches has read each literal of its sequence
    somewhere in the input. *)
Lemma run_seq (ci : bool) (r1 r2 : Re.regex) (p : Re.pos) :
  Re.nonempty (Re.run ci (Re.Seq r1 r2) p) = true ->
  exists m, In m (Re.run ci r1 p) /\ Re.nonempty (Re.run ci r2 m) = true.
Proof.
  intros H. apply nonempty_in in H. destruct H as [q H]. cbn in H.
  apply in_flat_map in H. destruct H as (m & Hm & Hq).
  exists m. split; [exact Hm | exact (in_nonempty _ _ Hq)].
Qed.

Lemma run_lit (ci : bool) (l : string) (p : Re.pos) :
  Re.nonempty (Re.run ci (Re.Lit l) p) = true ->
  exists r, Str.strip ci l (snd p) = Some r.
Proof. cbn. destruct (Str.strip ci l (snd p)) as [r|]; [exists r; reflexivity | discriminate]. Qed.

Lemma test_start (p : Re.pattern) (s : string) :
  Re.test p s = true ->
  exists st, suffix_of s (snd st)
             /\ Re.nonempty (Re.run (Re.ignoreCase p) (Re.body p) st) = true.
Proof.
  unfold Re.test. intros H. apply existsb_exists in H. destruct H as (st & Hin & Hr).
  exists st. split; [exact (starts_suffix _ _ _ Hin) | exact Hr].
Qed.

Lemma includes_in_suffix (n s t r : string) :
  suffix_of s t -> Str.strip false n t = Some r -> Str.includes n s = true.
Proof. intros [a ->] H. apply includes_after. exact (includes_here _ _ _ H). Qed.

Lemma run_lit_in (ci : bool) (l : string) (p q : Re.pos) :
  In q (Re.run ci (Re.Lit l) p) -> Str.strip ci l (snd p) = Some (snd q).
Proof.
  cbn. destruct (Str.strip ci l (snd p)) as [r|]; [|intros []].
  intros [<-|[]]. reflexivity.
Qed.

Lemma run_seq_in (ci : bool) (r1 r2 : Re.regex) (p : Re.pos) :
  Re.nonempty (Re.run ci (Re.Seq r1 r2) p) = true ->
  exists m, In m (Re.run ci r1 p)
            /\ suffix_of (snd p) (snd m)
            /\ Re.nonempty (Re.run ci r2 m) = true.
Proof.
  intros H. destruct (run_seq _ _ _ _ H) as (m & Hm & Hr).
  exists m. split; [exact Hm|]. split; [exact (run_suffix _ _ _ _ Hm) | exact Hr].
Qed.

(** Under the [i] flag such a code unit matches exactly the code units
    that [toLowerCase] sends to it. *)
Lemma ci_char (a b : ascii) :
  plainb a = true -> (Str.char_eqb true a b = true <-> Str.lower_char b = a).
Proof.
  intros Hp. apply andb_true_iff in Hp. destruct Hp as [Hlt Hf].
  apply Ascii.eqb_eq in Hf. unfold Str.char_eqb. rewrite Hf, Ascii.eqb_eq.
  destruct b as [[] [] [] [] [] [] [] []];
    match goal with
    | |- a = Str.fold_ascii ?B <-> Str.lower_char ?B = a =>
        let x := eval vm_compute in (Str.fold_ascii B) in
        let y := eval vm_compute in (Str.lower_char B) in
        change (Str.fold_ascii B) with x; change (Str.lower_char B) with y
    end;
    (split; intros H; first [ symmetry; exact H
                            | exfalso; subst a; vm_compute in Hlt; discriminate Hlt ]).
Qed.

Lemma strip_ci_lower (l t r : string) :
  all_plain l = true -> Str.strip true l t = Some r ->
  Str.strip false l (Str.toLowerCase t) = Some (Str.toLowerCase r).
Proof.
  revert t. induction l as [|a l IH]; intros t Hp H.
  - cbn in H. injection H as ->. reflexivity.
  - cbn [all_plain] in Hp. apply andb_true_iff in Hp. destruct Hp as [Ha Hl].
    destruct t as [|b t]; cbn [Str.strip] in H; [discriminate|].
    destruct (Str.char_eqb true a b) eqn:E; [|discriminate].
    apply (ci_char a b Ha) in E.
    cbn [Str.toLowerCase Str.strip Str.char_eqb]. rewrite E, Ascii.eqb_refl.
    exact (IH _ Hl H).
Qed.

Lemma strip_lower_ci (l t r : string) :
  all_plain l = true -> Str.strip false l (Str.toLowerCase t) = Some r ->
  exists r', Str.strip true l t = Some r'.
Proof.
  revert t. induction l as [|a l IH]; intros t Hp H.
  - exists t. reflexivity.
  - cbn [all_plain] in Hp. apply andb_true_iff in Hp. destruct Hp as [Ha Hl].
    destruct t as [|b t]; cbn [Str.toLowerCase Str.strip Str.char_eqb] in H; [discriminate|].
    destruct (Ascii.eqb_spec a (Str.lower_char b)) as [E|]; [|discriminate].
    symmetry in E. apply (ci_char a b Ha) in E. cbn [Str.strip]. rewrite E.
    exact (IH _ Hl H).
Qed.

Lemma toLowerCase_app (a b : string) :
  Str.toLowerCase (a ++ b) = Str.toLowerCase a ++ Str.toLowerCase b.
Proof. induction a as [|c a IH]; cbn; [reflexivity | f_equal; exact IH]. Qed.

(** [/text/i], for such a text, is the search for it in the lower-cased
    input. *)
Lemma test_lit_ci (l s : string) :
  all_plain l = true ->
  Re.test {| Re.ignoreCase := true; Re.body := Re.Lit l |} s
  = Str.includes l (Str.toLowerCase s).
Proof.
  intros Hp. unfold Re.test. cbn [Re.ignoreCase Re.body].
  assert (Hone : forall off t,
             Re.nonempty (Re.run true (Re.Lit l) (off, t))
             = match Str.strip false l (Str.toLowerCase t) with
               | Some _ => true
               | None => false
               end).
  { intros off t. cbn. destruct (Str.strip true l t) as [r|] eqn:E.
    - rewrite (strip_ci_lower _ _ _ Hp E). reflexivity.
    - destruct (Str.strip false l (Str.toLowerCase t)) as [r|] eqn:E'; [|reflexivity].
      destruct (strip_lower_ci _ _ _ Hp E') as [r' Hr]. congruence. }
  generalize 0%nat. induction s as [|c s IH]; intros off.
  - cbn [Re.starts existsb]. rewrite Hone. cbn.
    destruct (Str.strip false l EmptyString); reflexivity.
  - cbn [Re.starts existsb]. rewrite Hone, IH.
    change (Str.toLowerCase (String c s)) with (String (Str.lower_char c) (Str.toLowerCase s)).
    rewrite includes_cons.
    destruct (Str.strip false l (String (Str.lower_char c) (Str.toLowerCase s))); reflexivity.
Qed.

(** A pattern [/text.../i] only matches where the lower-cased input reads
    [text]. *)
Lemma test_lit_prefix_ci (l : string) (rest : Re.regex) (s : string) :
  all_plain l = true ->
  Re.test {| Re.ignoreCase := true; Re.body := Re.Seq (Re.Lit l) rest |} s = true ->
  exists a r, Str.toLowerCase s = a ++ l ++ r.
Proof.
  intros Hp H. destruct (test_start _ _ H) as (st & [a Hs] & Hr).
  cbn [Re.ignoreCase Re.body] in Hr.
  destruct (run_seq_in _ _ _ _ Hr) as (m & Hm & _ & _).
  apply run_lit_in in Hm. apply (strip_ci_lower _ _ _ Hp) in Hm.
  apply strip_split in Hm. exists (Str.toLowerCase a), (Str.toLowerCase (snd m)).
  rewrite Hs, toLowerCase_app, Hm. reflexivity.
Qed.

End StringFacts.

(* ===================================================================== *)
(** * Further properties of the exec failure filter *)

Section FilterReach.

Import Handler.

Lemma command_pattern_mentions (name : string) (p : Re.pattern) (s : string) :
  In p (command_patterns name) -> Re.test p s = true -> Str.includes name s = true.
Proof.
  intros Hin Ht. destruct (test_start _ _ Ht) as (st & Hst & Hr).
  cbn in Hin. destruct Hin as [<-|[<-|[<-|[<-|[]]]]]; cbn [Re.ignoreCase Re.body] in Hr.
  - destruct (run_seq_in _ _ _ _ Hr) as (m1 & _ & S1 & R1).
    destruct (run_seq_in _ _ _ _ R1) as (m2 & L & _ & _).
    apply run_lit_in in L.
    exact (includes_in_suffix _ _ _ _ (suffix_trans _ _ _ Hst S1) L).
  - destruct (run_seq_in _ _ _ _ Hr) as (m1 & _ & S1 & R1).
    destruct (run_seq_in _ _ _ _ R1) as (m2 & _ & S2 & R2).
    destruct (run_seq_in _ _ _ _ R2) as (m3 & L & _ & _).
    apply run_lit_in in L.
    exact (includes_in_suffix _ _ _ _
             (suffix_trans _ _ _ Hst (suffix_trans _ _ _ S1 S2)) L).
  - destruct (run_seq_in _ _ _ _ Hr) as (m1 & _ & S1 & R1).
    destruct (run_seq_in _ _ _ _ R1) as (m2 & _ & S2 & R2).
    destruct (run_seq_in _ _ _ _ R2) as (m3 & L & _ & _).
    apply run_lit_in in L.
    exact (includes_in_suffix _ _ _ _
             (suffix_trans _ _ _ Hst (suffix_trans _ _ _ S1 S2)) L).
  - destruct (run_seq_in _ _ _ _ Hr) as (m1 & _ & S1 & R1).
    destruct (run_seq_in _ _ _ _ R1) as (m2 & _ & S2 & R2).
    destruct (run_seq_in _ _ _ _ R2) as (m3 & L & _ & _).
    apply run_lit_in in L.
    exact (includes_in_suffix _ _ _ _
             (suffix_trans _ _ _ Hst (suffix_trans _ _ _ S1 S2)) L).
Qed.

(** X10.  [isHarmlessExecFailure] suppresses a failure only for one of
    three reasons it can point at in its input: the command contains
    [2>/dev/null], the error text matches a "no matches" pattern, or the
    exit code is 1 and the command contains the name of a benign command.
    A failure with none of the three is reported. *)
Theorem isHarmlessExecFailure_reasons (command : string) (exitCode : Z) (stderr : Js.value) :
  isHarmlessExecFailure command exitCode stderr = true ->
  Str.includes "2>/dev/null" command = true
  \/ benign_stderr stderr = true
  \/ (exitCode = 1
      /\ exists name, In name BENIGN_EXIT1_COMMANDS /\ Str.includes name command = true).
Proof.
  unfold isHarmlessExecFailure, REDIRECT_MARKER.
  destruct (Str.includes "2>/dev/null" command); cbn [orb]; [left; reflexivity|].
  destruct (exitCode =? 1) eqn:E1; cbn [andb].
  - destruct (benign_exit1_command command) eqn:Eb.
    + intros _. right. right. split; [apply Z.eqb_eq; exact E1|].
      unfold benign_exit1_command in Eb. apply existsb_exists in Eb.
      destruct Eb as (name & Hn & Hp). apply existsb_exists in Hp.
      destruct Hp as (p & Hp & Ht). exists name. split; [exact Hn|].
      apply includes_trim. exact (command_pattern_mentions _ _ _ Hp Ht).
    + destruct (benign_stderr stderr); [right; left; reflexivity | discriminate].
  - destruct (benign_stderr stderr); [right; left; reflexivity | discriminate].
Qed.

Lemma isHarmlessExecFailure_reasons_witness :
  isHarmlessExecFailure "ps aux | grep nginx" 1 Js.Undefined = true
  /\ exists name, In name BENIGN_EXIT1_COMMANDS
                  /\ Str.includes name "ps aux | grep nginx" = true.
Proof.
  assert (H : isHarmlessExecFailure "ps aux | grep nginx" 1 Js.Undefined = true)
    by reflexivity.
  split; [exact H|].
  destruct (isHarmlessExecFailure_reasons _ _ _ H) as [M|[S|(_ & name & Hn & Hi)]].
  - discriminate M.
  - discriminate S.
  - exists name. split; assumption.
Defined.

(** X12.  The pattern [/no matches found/i] is the search for that text in
    the lower-cased input, so an error text that contains it in any letter
    case makes every failure harmless, whatever the command and the exit
    code. *)
Theorem isHarmlessExecFailure_no_matches (command : string) (exitCode : Z) (err : string) :
  Str.includes "no matches found" (Str.toLowerCase err) = true ->
  Re.test re_no_matches_found err = true
  /\ isHarmlessExecFailure command exitCode (Js.Str err) = true.
Proof.
  intros H.
  assert (Ht : Re.test re_no_matches_found err = true)
    by (unfold re_no_matches_found; rewrite test_lit_ci; [exact H | reflexivity]).
  split; [exact Ht|].
  assert (Hb : benign_stderr (Js.Str err) = true).
  { unfold benign_stderr. apply andb_true_iff. split.
    - destruct err; [discriminate H | reflexivity].
    - cbn [Js.toString BENIGN_STDERR_PATTERNS existsb]. rewrite Ht. reflexivity. }
  unfold isHarmlessExecFailure. rewrite Hb.
  destruct (_ || _)%bool; [reflexivity|]. destruct (_ && _)%bool; reflexivity.
Qed.

Lemma isHarmlessExecFailure_no_matches_witness :
  Str.includes "no matches found" (Str.toLowerCase "zsh: No Matches Found: *.log") = true
  /\ isHarmlessExecFailure "rm *.log" 2 (Js.Str "zsh: No Matches Found: *.log") = true.
Proof.
  split; [reflexivity|].
  apply (isHarmlessExecFailure_no_matches "rm *.log" 2 "zsh: No Matches Found: *.log").
  reflexivity.
Defined.

Lemma has_code_inside (a l r : string) :
  Str.includes "code" l = true -> Str.includes "code" (a ++ l ++ r) = true.
Proof. apply includes_middle. Qed.

(** Each of the three recognising patterns reads the word [code]. *)
Lemma isExecErrorMsg_has_code (content : string) :
  isExecErrorMsg content = true ->
  Str.includes "code" (Str.toLowerCase content) = true.
Proof.
  unfold isExecErrorMsg. intros H.
  apply orb_true_iff in H. destruct H as [H|H];
    [apply orb_true_iff in H; destruct H as [H|H]|].
  - destruct (test_lit_prefix_ci "command exited with code " re_digits content eq_refl H)
      as (a & r & ->).
    apply has_code_inside. reflexivity.
  - destruct (test_lit_prefix_ci "exited with code " re_digits content eq_refl H)
      as (a & r & ->).
    apply has_code_inside. reflexivity.
  - destruct (test_start _ _ H) as (st & [a Hs] & Hr).
    cbn [Re.ignoreCase Re.body re_exit_code pre_exit_code] in Hr.
    destruct (run_seq_in _ _ _ _ Hr) as (m & Hm & _ & _).
    unfold pre_exit_code in Hm. cbn [Re.run] in Hm. apply in_flat_map in Hm.
    destruct Hm as (m0 & Hm0 & _).
    apply run_lit_in in Hm0. apply (strip_ci_lower "exit code" _ _ eq_refl) in Hm0.
    apply strip_split in Hm0. rewrite Hs, toLowerCase_app, Hm0.
    apply has_code_inside. reflexivity.
Qed.

(** X11.  [isHarmlessExecMessage] suppresses a message only when its text
    contains the word [code] (in any letter case), the number read after
    the first [code] is at most 1, and the lower-cased text contains the
    name of a benign command, [2>/dev/null] or [no matches found]. *)
Theorem isHarmlessExecMessage_reasons (content : string) :
  isHarmlessExecMessage content = true ->
  Str.includes "code" (Str.toLowerCase content) = true
  /\ extracted_exitCode content <= 1
  /\ ((exists name, In name BENIGN_EXIT1_COMMANDS
                    /\ Str.includes name (Str.toLowerCase content) = true)
      \/ Str.includes "2>/dev/null" (Str.toLowerCase content) = true
      \/ Str.includes "no matches found" (Str.toLowerCase content) = true).
Proof.
  unfold isHarmlessExecMessage, REDIRECT_MARKER.
  destruct (isExecErrorMsg content) eqn:Ee; cbn [negb]; [|discriminate].
  destruct (extracted_exitCode content >? 1) eqn:Eg; [discriminate|].
  intros H. split; [exact (isExecErrorMsg_has_code _ Ee)|].
  split; [rewrite Z.gtb_ltb in Eg; apply Z.ltb_ge in Eg; exact Eg|].
  destruct (existsb _ BENIGN_EXIT1_COMMANDS) eqn:Eb.
  - left. apply existsb_exists in Eb. destruct Eb as (name & Hn & Hi).
    exists name. split; assumption.
  - destruct (Str.includes "2>/dev/null" (Str.toLowerCase content)); [right; left; reflexivity|].
    right. right. unfold re_no_matches_found in H.
    rewrite test_lit_ci in H by reflexivity.
    destruct (Str.includes "no matches found" (Str.toLowerCase content));
      [reflexivity | discriminate H].
Qed.

Lemma isHarmlessExecMessage_reasons_witness :
  isHarmlessExecMessage "Process exited with code 1: zsh: no matches found" = true
  /\ Str.includes "code" (Str.toLowerCase "Process exited with code 1: zsh: no matches found")
     = true
  /\ extracted_exitCode "Process exited with code 1: zsh: no matches found" <= 1.
Proof.
  assert (H : isHarmlessExecMessage "Process exited with code 1: zsh: no matches found" = true)
    by reflexivity.
  split; [exact H|].
  destruct (isHarmlessExecMessage_reasons _ H) as (H1 & H2 & _).
  split; assumption.
Defined.

(** X13.  A non-empty reply to Boss whose text does not contain the word
    [code], in any letter case, is never taken for an exec report: it is
    forwarded to the messages feed and completes the task. *)
Theorem onMessageSent_plain_reply_forwarded (plugin : Plugin) (event : Js.value)
    (text : string) :
  sent_content event = Js.Str text ->
  text <> EmptyString ->
  Str.includes "code" (Str.toLowerCase text) = false ->
  is_boss (sent_recipientId event) = true ->
  isHarmlessExecMessage text = false
  /\ exists feed_call done_call,
       onMessageSent plugin event = ([feed_call; done_call], Some tt)
       /\ url feed_call = messagesEndpoint plugin
       /\ field_of "message" (payload feed_call) = Some (V (Js.Str text))
       /\ url done_call = workflowEndpoint plugin
       /\ field_of "action" (payload done_call) = Some (V (Js.Str "agent_complete")).
Proof.
  intros Hc Hne Hno Hb.
  assert (Hh : isHarmlessExecMessage text = false).
  { unfold isHarmlessExecMessage. destruct (isExecErrorMsg text) eqn:Ee; [|reflexivity].
    apply isExecErrorMsg_has_code in Ee. congruence. }
  split; [exact Hh|].
  rewrite onMessageSent_cases, Hc, Hh, Hb.
  destruct (String.eqb_spec text EmptyString) as [E|_]; [contradiction|].
  do 2 eexists. split; [reflexivity|]. repeat split.
Qed.

Lemma onMessageSent_plain_reply_forwarded_witness :
  sent_content (reply_to_boss "All tests pass, grep found nothing.")
  = Js.Str "All tests pass, grep found nothing."
  /\ Str.includes "code" (Str.toLowerCase "All tests pass, grep found nothing.") = false
  /\ List.length (calls (onMessageSent default_plugin
                           (reply_to_boss "All tests pass, grep found nothing."))) = 2%nat.
Proof.
  split; [reflexivity|]. split; [reflexivity|].
  destruct (onMessageSent_plain_reply_forwarded default_plugin
              (reply_to_boss "All tests pass, grep found nothing.")
              "All tests pass, grep found nothing."
              eq_refl ltac:(discriminate) eq_refl eq_refl) as (_ & a & b & H & _).
  rewrite H. reflexivity.
Defined.

(** [trimEnd], read from the front. *)
Lemma trimStart_snoc (x : string) (c : ascii) :
  Str.trimStart (x ++ String c EmptyString)
  = if String.eqb (Str.trimStart x) EmptyString
    then (if Str.is_space c then EmptyString else String c EmptyString)
    else Str.trimStart x ++ String c EmptyString.
Proof.
  induction x as [|a x IH]; cbn [append Str.trimStart].
  - destruct (Str.is_space c); reflexivity.
  - destruct (Str.is_space a); [exact IH | reflexivity].
Qed.

Lemma rev_empty (y : string) : String.eqb (Str.rev y) EmptyString = String.eqb y EmptyString.
Proof.
  destruct y as [|c y]; [reflexivity|]. rewrite rev_cons.
  destruct (Str.rev y); reflexivity.
Qed.

Lemma trimEnd_cons (c : ascii) (r : string) :
  Str.trimEnd (String c r)
  = if (Str.is_space c && String.eqb (Str.trimEnd r) EmptyString)%bool
    then EmptyString
    else String c (Str.trimEnd r).
Proof.
  unfold Str.trimEnd. rewrite rev_cons, trimStart_snoc, rev_empty.
  destruct (String.eqb_spec (Str.trimStart (Str.rev r)) EmptyString) as [E|E].
  - rewrite E. destruct (Str.is_space c); reflexivity.
  - rewrite rev_snoc, andb_false_r. reflexivity.
Qed.

Lemma trimStart_keep (c : ascii) (r : string) :
  Str.is_space c = false -> Str.trimStart (String c r) = String c r.
Proof. intros H. cbn [Str.trimStart]. rewrite H. reflexivity. Qed.

Lemma trimEnd_keep (c : ascii) (r : string) :
  Str.is_space c = false -> Str.trimEnd (String c r) = String c (Str.trimEnd r).
Proof. intros H. rewrite trimEnd_cons, H. reflexivity. Qed.

(** After a command name, what [trim] leaves of the arguments is nothing,
    or starts with the white space that followed the name. *)
Lemma trimEnd_space (r : string) :
  Str.trimEnd (String " " r) = EmptyString
  \/ Str.trimEnd (String " " r) = String " " (Str.trimEnd r).
Proof.
  rewrite trimEnd_cons. destruct (_ && _)%bool; [left | right]; reflexivity.
Qed.

Lemma benign_exit1_command_at (name command : string) :
  In name BENIGN_EXIT1_COMMANDS ->
  existsb (fun p => Re.test p (Str.trim command)) (command_patterns name) = true ->
  benign_exit1_command command = true.
Proof.
  intros Hn H. unfold benign_exit1_command. apply existsb_exists.
  exists name. split; assumption.
Qed.

(** X14.  A command that starts with the name of a benign command,
    alone or followed by a space and any arguments, is harmless at exit
    code 1, whatever its error text: [grep], [ls], [diff] and the others
    that found nothing are not reported. *)
Theorem isHarmlessExecFailure_benign_head (name args : string) (stderr : Js.value) :
  In name BENIGN_EXIT1_COMMANDS ->
  isHarmlessExecFailure name 1 stderr = true
  /\ isHarmlessExecFailure (name ++ " " ++ args) 1 stderr = true.
Proof.
  intros Hn.
  assert (Hh : forall command, benign_exit1_command command = true ->
                               isHarmlessExecFailure command 1 stderr = true).
  { intros command Hb. unfold isHarmlessExecFailure. rewrite Hb.
    destruct (_ || _)%bool; reflexivity. }
  split; apply Hh; apply (benign_exit1_command_at name _ Hn).
  - cbn in Hn. repeat (destruct Hn as [<-|Hn]; [reflexivity|]). destruct Hn.
  - cbn in Hn.
    repeat (destruct Hn as [<-|Hn];
            [ unfold Str.trim; cbn [append];
              rewrite trimStart_keep by reflexivity;
              repeat (rewrite trimEnd_keep by reflexivity);
              destruct (trimEnd_space args) as [-> | ->]; reflexivity |]).
    destruct Hn.
Qed.

Lemma isHarmlessExecFailure_benign_head_witness :
  In "diff" BENIGN_EXIT1_COMMANDS
  /\ isHarmlessExecFailure "diff" 1 Js.Undefined = true
  /\ isHarmlessExecFailure "diff -u a.txt b.txt  " 1 (Js.Str "files differ") = true.
Proof.
  assert (Hn : In "diff" BENIGN_EXIT1_COMMANDS) by (cbn; tauto).
  split; [exact Hn|]. split.
  - apply (proj1 (isHarmlessExecFailure_benign_head "diff" EmptyString Js.Undefined Hn)).
  - apply (proj2 (isHarmlessExecFailure_benign_head "diff" "-u a.txt b.txt  "
                    (Js.Str "files differ") Hn)).
Defined.

Lemma trimStart_app_keep (x : string) (c : ascii) (y : string) :
  Str.is_space c = false ->
  Str.trimStart (x ++ String c y) = Str.trimStart x ++ String c y.
Proof.
  intros H. induction x as [|a x IH]; cbn [append].
  - rewrite trimStart_keep by exact H. reflexivity.
  - cbn [Str.trimStart]. destruct (Str.is_space a); [exact IH | reflexivity].
Qed.

Lemma trimEnd_app_keep (a b : string) :
  String.eqb (Str.trimEnd b) EmptyString = false ->
  Str.trimEnd (a ++ b) = a ++ Str.trimEnd b.
Proof.
  intros H. induction a as [|c a IH]; [reflexivity|].
  cbn [append]. rewrite trimEnd_cons, IH.
  destruct (a ++ Str.trimEnd b) eqn:E.
  - destruct a; [cbn in E; rewrite E in H; discriminate H | discriminate E].
  - rewrite andb_false_r. reflexivity.
Qed.

(** A pattern that matches at the start of [s] wherever [s] stands
    matches in every input that ends with [s]. *)
Lemma test_at_end (p : Re.pattern) (a s : string) :
  (forall off, Re.nonempty (Re.run (Re.ignoreCase p) (Re.body p) (off, s)) = true) ->
  Re.test p (a ++ s) = true.
Proof.
  intros H. unfold Re.test. generalize 0%nat.
  induction a as [|c a IH]; intros off.
  - destruct s; cbn [append Re.starts existsb]; rewrite H; reflexivity.
  - cbn [append Re.starts existsb]. rewrite IH. apply orb_true_r.
Qed.

Lemma trimEnd_space_keep (r : string) :
  String.eqb (Str.trimEnd r) EmptyString = false ->
  Str.trimEnd (String " " r) = String " " (Str.trimEnd r).
Proof. intros H. rewrite trimEnd_cons, H, andb_false_r. reflexivity. Qed.

Lemma chained_pattern (sep name : string) :
  In sep ["|"; "&&"; ";"] ->
  In {| Re.ignoreCase := false;
        Re.body := Re.Seq (Re.Lit sep)
                     (Re.Seq (Re.Star Re.CSpace) (Re.Seq (Re.Lit name) re_word_end)) |}
     (command_patterns name).
Proof. intros [<-|[<-|[<-|[]]]]; cbn; auto 6. Qed.

Ltac trim_chained :=
  cbn [append]; unfold Str.trim;
  rewrite trimStart_app_keep by reflexivity;
  rewrite trimEnd_app_keep by (repeat (rewrite trimEnd_keep by reflexivity); reflexivity);
  repeat (rewrite trimEnd_keep by reflexivity);
  rewrite trimEnd_space_keep by (repeat (rewrite trimEnd_keep by reflexivity); reflexivity);
  repeat (rewrite trimEnd_keep by reflexivity).

(** X15.  So is, at exit code 1, any command line in which a benign
    command follows a pipe, [&&] or [;] and a space, whatever stands
    before it, whatever its arguments and whichever part of the line
    failed. *)
Theorem isHarmlessExecFailure_benign_chained
    (before sep name args : string) (stderr : Js.value) :
  In sep ["|"; "&&"; ";"] ->
  In name BENIGN_EXIT1_COMMANDS ->
  isHarmlessExecFailure (before ++ sep ++ " " ++ name) 1 stderr = true
  /\ isHarmlessExecFailure (before ++ sep ++ " " ++ name ++ " " ++ args) 1 stderr = true.
Proof.
  intros Hs Hn.
  assert (Hh : forall command, benign_exit1_command command = true ->
                               isHarmlessExecFailure command 1 stderr = true).
  { intros command Hb. unfold isHarmlessExecFailure. rewrite Hb.
    destruct (_ || _)%bool; reflexivity. }
  split; apply Hh; apply (benign_exit1_command_at name _ Hn); apply existsb_exists;
    eexists; (split; [exact (chained_pattern sep name Hs)|]);
    cbn in Hs, Hn;
    destruct Hs as [<-|[<-|[<-|[]]]];
    repeat (destruct Hn as [<-|Hn];
            [ trim_chained;
              lazymatch goal with
              | |- context [Str.trimEnd EmptyString] =>
                  change (Str.trimEnd EmptyString) with EmptyString
              | |- _ => destruct (trimEnd_space args) as [-> | ->]
              end;
              apply test_at_end; intros off; reflexivity |]);
    destruct Hn.
Qed.

Lemma isHarmlessExecFailure_benign_chained_witness :
  In "&&" ["|"; "&&"; ";"]
  /\ In "test" BENIGN_EXIT1_COMMANDS
  /\ isHarmlessExecFailure "make build && test -f out/app" 1 (Js.Str "make: *** Error 1") = true.
Proof.
  assert (Hs : In "&&" ["|"; "&&"; ";"]) by (cbn; tauto).
  assert (Hn : In "test" BENIGN_EXIT1_COMMANDS) by (cbn; tauto).
  split; [exact Hs|]. split; [exact Hn|].
  apply (proj2 (isHarmlessExecFailure_benign_chained "make build " "&&" "test" "-f out/app"
                  (Js.Str "make: *** Error 1") Hs Hn)).
Defined.

End FilterReach.

(* ===================================================================== *)
(** * Further properties of the watchdog *)

Section WatchdogRuns.

Import Watchdog Script.

Ltac unfold_script :=
  unfold after, ops_of, run, main, init_state, read_state, update_state, write_state,
    switch_to_polling, switch_to_webhook, record_switch, rewrite_config,
    restart_gateway, log, files, emit, Watchdog.bind, Watchdog.ret.

Lemma sh_int_small (n : Z) : small_count n -> sh_int n = n.
Proof.
  intros [H0 H1]. unfold sh_int, wrap64. unfold INT64_MAX in H1.
  rewrite Z.mod_small; lia.
Qed.

Lemma sh_succ_small (n : Z) : small_count n -> wrap64 (sh_int n + 1) = n + 1.
Proof.
  intros H. rewrite (sh_int_small n H). destruct H as [H0 H1]. unfold INT64_MAX in H1.
  unfold wrap64. rewrite Z.mod_small; lia.
Qed.

(** [next], on a count the shell increments without overflow. *)
Lemma next_small (e : Env) (s : State) :
  small_count (failureCount s) ->
  next e s
  = let n := failureCount s + 1 in
    let reset := if failureCount s >? 0 then jq_failureCount 0 s else s in
    if String.eqb (mode s) "webhook" then
      if webhook_down e then
        if n >=? FAILURE_THRESHOLD then (jq_switch "polling" (now e) s, true)
        else (jq_failureCount n s, false)
      else (reset, false)
    else
      if all_up e then
        if n >=? FAILURE_THRESHOLD then (jq_switch "webhook" (now e) s, true)
        else (jq_failureCount n s, false)
      else (reset, false).
Proof.
  intros H. unfold next. rewrite (sh_succ_small _ H), (sh_int_small _ H). reflexivity.
Qed.

Lemma run_state (e : Env) (f : Files) :
  state_file (after e f) = Some (fst (next e (starting f))).
Proof.
  destruct f as [[s|] cf ct]; unfold starting, next, webhook_down, all_up; cbn [state_file];
    unfold_script; cbn;
    repeat match goal with
      | |- context [if ?c then _ else _] => destruct c eqn:?; cbn
      | |- context [match ?c with Some _ => _ | None => _ end] => destruct c eqn:?; cbn
      end;
    reflexivity.
Qed.

Lemma run_switches (e : Env) (f : Files) :
  switches (ops_of e f) = if snd (next e (starting f)) then 1%nat else 0%nat.
Proof.
  destruct f as [[s|] cf ct]; unfold starting, next, webhook_down, all_up; cbn [state_file];
    unfold_script; cbn;
    repeat match goal with
      | |- context [if ?c then _ else _] => destruct c eqn:?; cbn
      | |- context [match ?c with Some _ => _ | None => _ end] => destruct c eqn:?; cbn
      end;
    reflexivity.
Qed.

Lemma run_starting (e : Env) (f : Files) :
  starting (after e f) = fst (next e (starting f)).
Proof. unfold starting at 1. rewrite run_state. reflexivity. Qed.

Lemma switches_append (a b : list op) : switches (a ++ b) = (switches a + switches b)%nat.
Proof. unfold switches. rewrite filter_app, length_app. reflexivity. Qed.

(** X16.  The way back mirrors the way out: from polling with count 0, one
    run that finds proxy, tunnel and gateway up persists count 1 and
    switches nothing; a second such run makes the one switch of the two,
    to webhook, with the count back at 0 and [lastSwitch] set to the clock
    of that run. *)
Theorem two_runs_all_up_switch_to_webhook (e1 e2 : Env) (f : Files) :
  mode (starting f) = "polling" ->
  failureCount (starting f) = 0 ->
  all_up e1 = true ->
  all_up e2 = true ->
  state_file (after e1 f) = Some (jq_failureCount 1 (starting f))
  /\ switches (ops_of e1 f) = 0%nat
  /\ state_file (after e2 (after e1 f))
     = Some {| mode := "webhook"; failureCount := 0;
               lastCheck := lastCheck (starting f); lastSwitch := now e2 |}
  /\ switches (ops_of e1 f ++ ops_of e2 (after e1 f)) = 1%nat.
Proof.
  intros Hm Hc H1 H2.
  assert (N1 : next e1 (starting f) = (jq_failureCount 1 (starting f), false)).
  { unfold next. rewrite Hm, Hc, H1. reflexivity. }
  assert (N2 : next e2 (jq_failureCount 1 (starting f))
               = (jq_switch "webhook" (now e2) (starting f), true)).
  { unfold next. cbn [mode failureCount jq_failureCount]. rewrite Hm, H2. reflexivity. }
  rewrite switches_append, !run_switches, !run_state, run_starting, N1. cbn [fst snd].
  rewrite N2. repeat split.
Qed.

Lemma two_runs_all_up_switch_to_webhook_witness :
  state_file (after (all_ok 240) (after (all_ok 180) (with_state (polling_state 0) None)))
  = Some {| mode := "webhook"; failureCount := 0; lastCheck := 0; lastSwitch := 240 |}
  /\ switches (ops_of (all_ok 180) (with_state (polling_state 0) None)) = 0%nat.
Proof.
  destruct (two_runs_all_up_switch_to_webhook (all_ok 180) (all_ok 240)
              (with_state (polling_state 0) None) eq_refl eq_refl eq_refl eq_refl)
    as (_ & H2 & H3 & _).
  split; [exact H3 | exact H2].
Defined.

(** X17.  The gateway's configuration follows the mode.  A run that does
    not switch leaves the configuration and its temporary file alone.  A
    run that switches to polling leaves [webhookUrl], [webhookSecret] and
    [webhookPath] all [null]; a run that switches to webhook leaves
    [webhookUrl] at [https://office.itskcc.com/api/telegram/webhook],
    [webhookPath] at [/api/telegram/webhook] and [webhookSecret] at a
    string that is not empty; in both the temporary file is gone, renamed
    into place.  When the configuration file is missing the switch is
    recorded all the same, no configuration is created, and the empty
    temporary file stays behind. *)
Theorem config_follows_mode (e : Env) (f : Files) :
  (switches (ops_of e f) = 0%nat ->
     config_file (after e f) = config_file f /\ config_tmp (after e f) = config_tmp f)
  /\ (switches (ops_of e f) <> 0%nat ->
      exists s',
        state_file (after e f) = Some s'
        /\ (mode s' = "polling" \/ mode s' = "webhook")
        /\ (config_file f = None ->
            config_file (after e f) = None /\ config_tmp (after e f) = Some NoOutput)
        /\ (config_file f <> None ->
            config_tmp (after e f) = None
            /\ exists c',
                 config_file (after e f) = Some c'
                 /\ (mode s' = "polling" ->
                     webhookUrl c' = None
                     /\ webhookSecret c' = None
                     /\ webhookPath c' = None)
                 /\ (mode s' = "webhook" ->
                     webhookUrl c' = Some "https://office.itskcc.com/api/telegram/webhook"
                     /\ webhookPath c' = Some "/api/telegram/webhook"
                     /\ exists secret,
                          webhookSecret c' = Some secret /\ secret <> EmptyString))).
Proof.
  destruct f as [[s|] [c|] ct]; unfold_script; cbn;
    repeat match goal with
      | |- context [if ?c then _ else _] => destruct c eqn:?; cbn
      end;
    (split; [intros H; first [discriminate H | split; reflexivity]|]);
    intros H; first [exfalso; apply H; reflexivity | idtac];
    eexists; (split; [reflexivity|]); cbn; (split; [auto|]);
    (split; [intros Hc; first [discriminate Hc | split; reflexivity]|]);
    intros Hc; first [exfalso; apply Hc; reflexivity | idtac];
    (split; [reflexivity|]); eexists; (split; [reflexivity|]); cbn;
    (split; [intros Hm; first [discriminate Hm | repeat split]|]);
    intros Hm; first [discriminate Hm | idtac];
    (split; [reflexivity|]); (split; [reflexivity|]);
    eexists; (split; [reflexivity|]); discriminate.
Qed.

Lemma config_follows_mode_witness :
  switches (ops_of (all_ok 180) (with_state (polling_state 1) configured)) <> 0%nat
  /\ config_file (with_state (polling_state 1) configured) <> None
  /\ (exists c',
        config_file (after (all_ok 180) (with_state (polling_state 1) configured)) = Some c'
        /\ webhookUrl c' = Some "https://office.itskcc.com/api/telegram/webhook"
        /\ webhookPath c' = Some "/api/telegram/webhook"
        /\ webhookSecret c' <> None)
  /\ switches (ops_of (proxy_down 60) no_files) = 0%nat
  /\ config_file (after (proxy_down 60) no_files) = None.
Proof.
  assert (Hs : switches (ops_of (all_ok 180) (with_state (polling_state 1) configured)) <> 0%nat)
    by (cbn; discriminate).
  assert (Hc : config_file (with_state (polling_state 1) configured) <> None)
    by (cbn; discriminate).
  assert (H0 : switches (ops_of (proxy_down 60) no_files) = 0%nat) by reflexivity.
  split; [exact Hs|]. split; [exact Hc|]. split.
  - destruct (proj2 (config_follows_mode (all_ok 180) (with_state (polling_state 1) configured)) Hs)
      as (s' & Hst & _ & _ & Hsome).
    destruct (Hsome Hc) as (_ & c' & Hc' & _ & Hweb).
    cbn in Hst. injection Hst as <-.
    destruct (Hweb eq_refl) as (Hu & Hp & secret & Hsec & _).
    exists c'. split; [exact Hc'|]. split; [exact Hu|]. split; [exact Hp|].
    rewrite Hsec. discriminate.
  - split; [exact H0|].
    exact (proj1 (proj1 (config_follows_mode (proxy_down 60) no_files) H0)).
Defined.

(** X18.  The dashboard's own probe is optional: reversing it changes
    neither the files a run leaves nor, the health line of the log apart,
    what the run does. *)
Theorem kcc_probe_ignored (e : Env) (f : Files) :
  after (flip_kcc e) f = after e f
  /\ filter (fun o => negb (is_health_line o)) (ops_of (flip_kcc e) f)
     = filter (fun o => negb (is_health_line o)) (ops_of e f)
  /\ switches (ops_of (flip_kcc e) f) = switches (ops_of e f).
Proof.
  destruct f as [[s|] [c|] ct]; destruct e as [ng cf oc kc t]; unfold flip_kcc;
    unfold_script; cbn;
    repeat match goal with
      | |- context [if ?c then _ else _] => destruct c eqn:?; cbn
      end;
    repeat split.
Qed.

(** X19.  No run ever touches [lastCheck]; [lastSwitch] and the mode
    change together, exactly in the runs that switch, and then
    [lastSwitch] is the clock of the run. *)
Theorem stamps_change_only_on_switch (e : Env) (f : Files) :
  exists s',
    state_file (after e f) = Some s'
    /\ lastCheck s' = lastCheck (starting f)
    /\ (switches (ops_of e f) = 0%nat ->
        mode s' = mode (starting f) /\ lastSwitch s' = lastSwitch (starting f))
    /\ (switches (ops_of e f) <> 0%nat ->
        mode s' <> mode (starting f) /\ lastSwitch s' = now e
        /\ failureCount s' = 0).
Proof.
  exists (fst (next e (starting f))). split; [apply run_state|].
  rewrite run_switches. set (s := starting f). unfold next.
  destruct (String.eqb_spec (mode s) "webhook") as [Em|Em];
    [ destruct (webhook_down e) | destruct (all_up e) ];
    try destruct (wrap64 (sh_int (failureCount s) + 1) >=? FAILURE_THRESHOLD);
    try destruct (sh_int (failureCount s) >? 0);
    cbn [fst snd jq_switch jq_failureCount mode lastCheck lastSwitch failureCount];
    (split; [reflexivity|]);
    (split; [intros H; first [discriminate H | split; reflexivity]|]);
    intros H; first [exfalso; apply H; reflexivity | idtac];
    (split; [|split; reflexivity]);
    first [ rewrite Em; discriminate | intros E; apply Em; symmetry; exact E ].
Qed.

Lemma stamps_change_only_on_switch_witness :
  switches (ops_of (proxy_down 60) no_files) = 0%nat
  /\ switches (ops_of (all_ok 180) polling_after_one_success) <> 0%nat
  /\ exists s', state_file (after (all_ok 180) polling_after_one_success) = Some s'
                /\ lastSwitch s' = 180 /\ lastCheck s' = 0.
Proof.
  assert (H0 : switches (ops_of (proxy_down 60) no_files) = 0%nat) by reflexivity.
  assert (H1 : switches (ops_of (all_ok 180) polling_after_one_success) <> 0%nat)
    by (cbn; discriminate).
  split; [exact H0|]. split; [exact H1|].
  destruct (stamps_change_only_on_switch (all_ok 180) polling_after_one_success)
    as (s' & Hs & Hc & _ & Hsw).
  exists s'. split; [exact Hs|]. split; [exact (proj1 (proj2 (Hsw H1))) | exact Hc].
Defined.

(** One step of the count: it stays small, and a switch costs the count
    what it had gathered. *)
Lemma next_budget (e : Env) (s : State) :
  small_count (failureCount s) ->
  (failureCount (fst (next e s)) = 0 \/ failureCount (fst (next e s)) = 1)
  /\ 2 * Z.b2z (snd (next e s)) + failureCount (fst (next e s)) <= 1 + failureCount s.
Proof.
  intros H. rewrite (next_small e s H). destruct H as [H0 H1]. unfold FAILURE_THRESHOLD.
  cbv zeta.
  destruct (String.eqb (mode s) "webhook");
    [ destruct (webhook_down e) | destruct (all_up e) ];
    try (destruct (failureCount s + 1 >=? 2) eqn:Eg;
         [ rewrite Z.geb_leb in Eg; apply Z.leb_le in Eg
         | rewrite Z.geb_leb in Eg; apply Z.leb_gt in Eg ]);
    try (destruct (failureCount s >? 0) eqn:Ep;
         [ rewrite Z.gtb_ltb in Ep; apply Z.ltb_lt in Ep
         | rewrite Z.gtb_ltb in Ep; apply Z.ltb_ge in Ep ]);
    cbn [fst snd jq_switch jq_failureCount failureCount Z.b2z]; lia.
Qed.

Lemma small_01 (n : Z) : n = 0 \/ n = 1 -> small_count n.
Proof. unfold small_count, INT64_MAX. lia. Qed.

Lemma runs_cons (e : Env) (rest : list Env) (f : Files) :
  runs (e :: rest) f
  = (fst (runs rest (after e f)), (ops_of e f ++ snd (runs rest (after e f)))%list).
Proof. cbn [runs]. destruct (runs rest (after e f)). reflexivity. Qed.

(** X20.  The watchdog cannot flap: over any sequence of consecutive runs,
    whatever the probes, twice the number of mode switches is at most the
    number of runs plus the count it started from, so from count 0 it
    switches at most once in every two runs. *)
Theorem switches_bounded_by_runs (es : list Env) (f : Files) :
  small_count (failureCount (starting f)) ->
  2 * Z.of_nat (switches (snd (runs es f))) + failureCount (starting (fst (runs es f)))
  <= Z.of_nat (List.length es) + failureCount (starting f)
  /\ small_count (failureCount (starting (fst (runs es f)))).
Proof.
  revert f. induction es as [|e rest IH]; intros f H.
  - cbn. split; [lia | exact H].
  - rewrite runs_cons. cbn [fst snd].
    destruct (next_budget e (starting f) H) as [H01 Hb].
    assert (Hs : small_count (failureCount (starting (after e f))))
      by (rewrite run_starting; apply small_01; exact H01).
    destruct (IH (after e f) Hs) as [IH1 IH2]. split; [|exact IH2].
    rewrite switches_append, run_switches, run_starting in *.
    rewrite Nat2Z.inj_add. cbn [List.length]. rewrite Nat2Z.inj_succ.
    destruct (snd (next e (starting f))); cbn [Z.b2z] in Hb; cbn [Z.of_nat] in *; lia.
Qed.

Lemma switches_bounded_by_runs_witness :
  small_count (failureCount (starting no_files))
  /\ 2 * Z.of_nat (switches (snd (runs [proxy_down 60; proxy_down 120; all_ok 180] no_files)))
     <= 3.
Proof.
  assert (H : small_count (failureCount (starting no_files)))
    by (cbn; unfold small_count, INT64_MAX; lia).
  split; [exact H|].
  destruct (switches_bounded_by_runs [proxy_down 60; proxy_down 120; all_ok 180] no_files H)
    as [Hb [H0 _]].
  cbn [List.length Z.of_nat] in Hb. change (failureCount (starting no_files)) with 0 in Hb.
  lia.
Defined.

(** X21.  Whatever the probes of each run, a state file that starts as
    the script creates it, or with a mode of the two and a count of 0 or
    1, stays so for ever: the mode is [webhook] or [polling] and the count
    is 0 or 1 after any number of runs. *)
Theorem state_stays_tidy (es : list Env) (f : Files) :
  mode (starting f) = "webhook" \/ mode (starting f) = "polling" ->
  failureCount (starting f) = 0 \/ failureCount (starting f) = 1 ->
  (mode (starting (fst (runs es f))) = "webhook"
   \/ mode (starting (fst (runs es f))) = "polling")
  /\ (failureCount (starting (fst (runs es f))) = 0
      \/ failureCount (starting (fst (runs es f))) = 1)
  /\ lastCheck (starting (fst (runs es f))) = lastCheck (starting f).
Proof.
  revert f. induction es as [|e rest IH]; intros f Hm Hc.
  - cbn. repeat split; assumption.
  - rewrite runs_cons. cbn [fst].
    assert (Hs : small_count (failureCount (starting f))) by (apply small_01; exact Hc).
    destruct (next_budget e (starting f) Hs) as [H01 _].
    assert (Hm' : mode (starting (after e f)) = "webhook"
                  \/ mode (starting (after e f)) = "polling").
    { rewrite run_starting. unfold next.
      repeat match goal with
        | |- context [if ?c then _ else _] => destruct c
        end; cbn; auto. }
    assert (Hl : lastCheck (starting (after e f)) = lastCheck (starting f)).
    { rewrite run_starting. unfold next.
      repeat match goal with
        | |- context [if ?c then _ else _] => destruct c
        end; reflexivity. }
    rewrite <- run_starting in H01.
    destruct (IH (after e f) Hm' H01) as (I1 & I2 & I3).
    split; [exact I1|]. split; [exact I2|]. rewrite I3. exact Hl.
Qed.

Lemma state_stays_tidy_witness :
  (mode (starting no_files) = "webhook" \/ mode (starting no_files) = "polling")
  /\ (failureCount (starting (fst (runs [proxy_down 60; proxy_down 120; all_ok 180] no_files)))
      = 0
      \/ failureCount (starting (fst (runs [proxy_down 60; proxy_down 120; all_ok 180]
                                        no_files))) = 1).
Proof.
  assert (Hm : mode (starting no_files) = "webhook" \/ mode (starting no_files) = "polling")
    by (left; reflexivity).
  split; [exact Hm|].
  exact (proj1 (proj2 (state_stays_tidy [proxy_down 60; proxy_down 120; all_ok 180] no_files
                         Hm (or_introl eq_refl)))).
Defined.

(** X22.  In webhook mode the gateway's probe does not count: with the
    proxy and the tunnel up, a run persists count 0 and switches nothing
    even when the gateway is down, and a further such run changes nothing
    in the persisted state. *)
Theorem webhook_healthy_run_resets (e : Env) (f : Files) :
  mode (starting f) = "webhook" ->
  0 <= failureCount (starting f) <= INT64_MAX ->
  nginx_ok e = true ->
  cf_ok e = true ->
  state_file (after e f) = Some (jq_failureCount 0 (starting f))
  /\ switches (ops_of e f) = 0%nat
  /\ (forall e' : Env, nginx_ok e' = true -> cf_ok e' = true ->
        state_file (after e' (after e f)) = state_file (after e f)).
Proof.
  intros Hm Hc Hn Ht.
  assert (N : forall e0 s, mode s = "webhook" -> 0 <= failureCount s <= INT64_MAX ->
                           nginx_ok e0 = true -> cf_ok e0 = true ->
                           next e0 s = (jq_failureCount 0 s, false)).
  { intros e0 s Hms Hcs Hn0 Ht0. unfold next, webhook_down. rewrite Hms, Hn0, Ht0. cbn.
    assert (Hi : sh_int (failureCount s) = failureCount s).
    { unfold sh_int, wrap64. unfold INT64_MAX in Hcs. rewrite Z.mod_small; lia. }
    rewrite Hi. destruct (Z.eq_dec (failureCount s) 0) as [E|E].
    - rewrite E. cbn. destruct s; cbn in E; subst; reflexivity.
    - replace (failureCount s >? 0) with true; [reflexivity|].
      symmetry. rewrite Z.gtb_ltb. apply Z.ltb_lt. lia. }
  rewrite run_state, run_switches, (N e _ Hm Hc Hn Ht). cbn [fst snd].
  split; [reflexivity|]. split; [reflexivity|].
  intros e' Hn' Ht'. rewrite run_state, run_starting, (N e _ Hm Hc Hn Ht). cbn [fst].
  rewrite (N e' (jq_failureCount 0 (starting f)));
    [reflexivity | exact Hm | cbn; unfold INT64_MAX; lia | exact Hn' | exact Ht'].
Qed.

Lemma webhook_healthy_run_resets_witness :
  state_file (after (gateway_down 120) (after (proxy_down 60) no_files))
  = Some {| mode := "webhook"; failureCount := 0; lastCheck := 0; lastSwitch := 0 |}
  /\ switches (ops_of (gateway_down 120) (after (proxy_down 60) no_files)) = 0%nat.
Proof.
  destruct (webhook_healthy_run_resets (gateway_down 120) (after (proxy_down 60) no_files)
              eq_refl ltac:(vm_compute; split; discriminate) eq_refl eq_refl)
    as (H1 & H2 & _).
  split; [exact H1 | exact H2].
Defined.

(** X23.  The failures have to be consecutive: a run that finds proxy and
    tunnel up between two runs that find one of them down prevents the
    switch, and the three runs end in webhook mode with count 1. *)
Theorem healthy_run_breaks_streak (e1 e2 e3 : Env) (f : Files) :
  mode (starting f) = "webhook" ->
  failureCount (starting f) = 0 ->
  webhook_down e1 = true ->
  webhook_down e2 = false ->
  webhook_down e3 = true ->
  switches (snd (runs [e1; e2; e3] f)) = 0%nat
  /\ state_file (fst (runs [e1; e2; e3] f)) = Some (jq_failureCount 1 (starting f)).
Proof.
  intros Hm Hc H1 H2 H3.
  assert (N1 : next e1 (starting f) = (jq_failureCount 1 (starting f), false))
    by (unfold next; rewrite Hm, Hc, H1; reflexivity).
  assert (N2 : next e2 (jq_failureCount 1 (starting f)) = (jq_failureCount 0 (starting f), false))
    by (unfold next; cbn [mode failureCount jq_failureCount]; rewrite Hm, H2; reflexivity).
  assert (N3 : next e3 (jq_failureCount 0 (starting f)) = (jq_failureCount 1 (starting f), false))
    by (unfold next; cbn [mode failureCount jq_failureCount]; rewrite Hm, H3; reflexivity).
  rewrite !runs_cons. cbn [runs fst snd].
  rewrite app_nil_r, !switches_append, !run_switches, !run_state, !run_starting.
  rewrite N1. cbn [fst snd]. rewrite N2. cbn [fst snd]. rewrite N3. split; reflexivity.
Qed.

Lemma healthy_run_breaks_streak_witness :
  webhook_down (proxy_down 60) = true
  /\ webhook_down (gateway_down 120) = false
  /\ switches (snd (runs [proxy_down 60; gateway_down 120; proxy_down 180] no_files)) = 0%nat.
Proof.
  split; [reflexivity|]. split; [reflexivity|].
  exact (proj1 (healthy_run_breaks_streak (proxy_down 60) (gateway_down 120) (proxy_down 180)
                  no_files eq_refl eq_refl eq_refl eq_refl eq_refl)).
Defined.

End WatchdogRuns.
